(** * tensormeterclient: the Tensormeter RTM binary protocol client

    A shallow embedding of [tensormeterclient.py]: the [struct] codec the
    module relies on, the field table [LUT], [TensormeterData] (pack, unpack,
    update) and [TensormeterRTM1Client] (receive loop, send, get_data). *)

From Stdlib Require Import ZArith Lia List Bool String Ascii.
From Stdlib Require Import Strings.Byte.
From stdpp Require Import gmap strings.
Import ListNotations.

Local Set Warnings "-register-all".

Local Open Scope string_scope.
Local Open Scope list_scope.
Local Open Scope Z_scope.

(** ** Bytes and big-endian integers *)

Module Bytes.

Abbreviation bytes := (list byte).

Definition Z_of_byte (b : byte) : Z := Z.of_N (Byte.to_N b).

Definition byte_of_Z (z : Z) : byte :=
  match Byte.of_N (Z.to_N (z mod 256)) with
  | Some b => b
  | None => x00
  end.

(** The [w] low-order bytes of [z], most significant first. *)
Fixpoint be_bytes (w : nat) (z : Z) : bytes :=
  match w with
  | O => []
  | S w' => byte_of_Z (z / 256 ^ Z.of_nat w') :: be_bytes w' z
  end.

(** The unsigned integer a big-endian byte string denotes. *)
Fixpoint be_int (bs : bytes) : Z :=
  match bs with
  | [] => 0
  | b :: bs' => Z_of_byte b * 256 ^ Z.of_nat (length bs') + be_int bs'
  end.

(** [data.decode("ASCII")]: every byte must be below 128. *)
Definition is_ascii_byte (b : byte) : bool := Z_of_byte b <? 128.

Definition decode_ascii (bs : bytes) : option string :=
  if forallb is_ascii_byte bs
  then Some (string_of_list_ascii (map ascii_of_byte bs))
  else None.

(** One byte per character of a string. *)
Definition ascii_bytes (s : string) : bytes :=
  map byte_of_ascii (list_ascii_of_string s).

(** [s.encode("ASCII")]: every character must be below U+0080. *)
Definition encode_ascii (s : string) : option bytes :=
  let bs := ascii_bytes s in
  if forallb is_ascii_byte bs then Some bs else None.

End Bytes.
Import Bytes.

(** ** Python values and exceptions *)

(** Plain Python values, as a caller passes them and as [struct.unpack]
    returns them.  A float is its IEEE-754 binary64 bit pattern (what
    [struct] writes on the wire).  [PSeq] is a list or a tuple: the codec
    only takes [len] of its argument and iterates over it, so both are
    represented by their sequence of elements. *)
Inductive pyval : Type :=
| PNone
| PBool (b : bool)
| PInt (z : Z)
| PFloat (bits : Z)
| PStr (s : string)
| PBytes (bs : bytes)
| PSeq (l : list pyval).

(** A numpy array of two dimensions: its shape and its elements in C
    (row-major) order, element [(i, j)] at index [i * snd shape + j]. *)
Record ndarray : Type := mk_ndarray { shape : nat * nat; flat : list pyval }.

(** What the data dictionary holds. *)
Inductive decoded : Type :=
| DVal (v : pyval)
| DArray (a : ndarray).

Inductive value_error : Type :=
| UnknownDataField (cmd : string) (nbytes : nat)
| NegativeBuffersize
| BufferSizeNotMultiple
| OffsetOutOfRange
| CannotReshape (size : nat) (newshape : nat * nat)
| ClosedSelector.

Inductive exn : Type :=
| KeyError (key : string)
| TypeError
| StructError
| NotImplementedError
| ValueError (why : value_error)
| UnicodeDecodeError
| UnicodeEncodeError
| BlockingIOError
| OSError
| TimeoutError.

(** [isinstance(e, ValueError)]: the Unicode errors derive from
    [ValueError]; [struct.error] derives from [Exception] only. *)
Definition is_ValueError (e : exn) : bool :=
  match e with
  | ValueError _ | UnicodeDecodeError | UnicodeEncodeError => true
  | _ => false
  end.

Inductive result (A : Type) : Type :=
| Ok (a : A)
| Raise (e : exn).
Arguments Ok {A} a.
Arguments Raise {A} e.

Definition rbind {A B} (m : result A) (k : A -> result B) : result B :=
  match m with
  | Ok a => k a
  | Raise e => Raise e
  end.

Notation "'let?' x ':=' m 'in' k" := (rbind m (fun x => k))
  (at level 10, x name, m at level 200, k at level 200).

Definition of_option {A} (e : exn) (o : option A) : result A :=
  match o with
  | Some a => Ok a
  | None => Raise e
  end.

(** [bool(v)] *)
Definition truthy (v : pyval) : bool :=
  match v with
  | PNone => false
  | PBool b => b
  | PInt z => negb (z =? 0)
  | PFloat bits => negb ((bits =? 0) || (bits =? 2 ^ 63))
  | PStr s => negb (String.eqb s "")
  | PBytes bs => negb (Nat.eqb (length bs) 0)
  | PSeq l => negb (Nat.eqb (length l) 0)
  end.

(** [len(v)] *)
Definition py_len (v : pyval) : result nat :=
  match v with
  | PStr s => Ok (String.length s)
  | PBytes bs => Ok (length bs)
  | PSeq l => Ok (length l)
  | _ => Raise TypeError
  end.

(** The items [*v] unpacks to. *)
Definition py_iter (v : pyval) : result (list pyval) :=
  match v with
  | PStr s => Ok (map (fun c => PStr (String c EmptyString)) (list_ascii_of_string s))
  | PBytes bs => Ok (map (fun b => PInt (Z_of_byte b)) bs)
  | PSeq l => Ok l
  | _ => Raise TypeError
  end.

(** ** The [struct] module, big-endian standard sizes *)

Module Struct.

(** The type characters of the field table. *)
Inductive tchar : Type :=
| c_d      (* 'd': float64 *)
| c_bool   (* '?': 1-byte boolean *)
| c_H      (* 'H': unsigned 16 bit *)
| c_I      (* 'I': unsigned 32 bit *)
| c_i.     (* 'i': signed 32 bit *)

(** One item of a format string. *)
Inductive item : Type :=
| One (c : tchar)
| Str (n : nat).   (* '<n>s' *)

Definition width (c : tchar) : nat :=
  match c with
  | c_d => 8
  | c_bool => 1
  | c_H => 2
  | c_I => 4
  | c_i => 4
  end%nat.

Definition item_size (it : item) : nat :=
  match it with
  | One c => width c
  | Str n => n
  end.

Fixpoint calcsize (f : list item) : nat :=
  match f with
  | [] => 0
  | it :: f' => item_size it + calcsize f'
  end%nat.

(** [float(z)] for an int, round-half-even; [None] is OverflowError. *)
Definition float_of_Z (z : Z) : option Z :=
  if z =? 0 then Some 0 else
  let s := if z <? 0 then 2 ^ 63 else 0 in
  let m := Z.abs z in
  let e := Z.log2 m in
  let q :=
    if e <=? 52 then m * 2 ^ (52 - e)
    else
      let k := e - 52 in
      let q0 := m / 2 ^ k in
      let r := m mod 2 ^ k in
      let half := 2 ^ (k - 1) in
      if (half <? r) || ((r =? half) && Z.odd q0) then q0 + 1 else q0 in
  let bits := (e + 1023) * 2 ^ 52 + (q - 2 ^ 52) in
  if 2047 * 2 ^ 52 <=? bits then None else Some (s + bits).

(** The integer an argument of an integer format stands for
    ([bool] is a subclass of [int]). *)
Definition as_int (v : pyval) : option Z :=
  match v with
  | PInt z => Some z
  | PBool b => Some (if b then 1 else 0)
  | _ => None
  end.

Definition as_float (v : pyval) : option Z :=
  match v with
  | PFloat bits => Some bits
  | _ => match as_int v with
         | Some z => float_of_Z z
         | None => None
         end
  end.

Definition pack_int (w : nat) (lo hi : Z) (v : pyval) : result bytes :=
  match as_int v with
  | Some z =>
      if (lo <=? z) && (z <=? hi)
      then Ok (be_bytes w (z mod 256 ^ Z.of_nat w))
      else Raise StructError
  | None => Raise StructError
  end.

Definition pack_one (c : tchar) (v : pyval) : result bytes :=
  match c with
  | c_d =>
      match as_float v with
      | Some bits => Ok (be_bytes 8 bits)
      | None => Raise StructError
      end
  | c_bool => Ok (be_bytes 1 (if truthy v then 1 else 0))
  | c_H => pack_int 2 0 (2 ^ 16 - 1) v
  | c_I => pack_int 4 0 (2 ^ 32 - 1) v
  | c_i => pack_int 4 (- 2 ^ 31) (2 ^ 31 - 1) v
  end.

Definition pack_item (it : item) (v : pyval) : result bytes :=
  match it with
  | One c => pack_one c v
  | Str n =>
      match v with
      | PBytes bs => Ok (firstn n bs ++ repeat x00 (n - length bs))
      | _ => Raise StructError
      end
  end.

(** [struct.pack('>' + f, *args)] *)
Fixpoint pack (f : list item) (args : list pyval) : result bytes :=
  match f, args with
  | [], [] => Ok []
  | it :: f', v :: args' =>
      let? b := pack_item it v in
      let? bs := pack f' args' in
      Ok (b ++ bs)
  | _, _ => Raise StructError
  end.

Definition unpack_one (c : tchar) (bs : bytes) : pyval :=
  match c with
  | c_d => PFloat (be_int bs)
  | c_bool => PBool (negb (be_int bs =? 0))
  | c_H => PInt (be_int bs)
  | c_I => PInt (be_int bs)
  | c_i => let u := be_int bs in
           PInt (if 2 ^ 31 <=? u then u - 2 ^ 32 else u)
  end.

Definition unpack_item (it : item) (bs : bytes) : pyval :=
  match it with
  | One c => unpack_one c bs
  | Str n => PBytes bs
  end.

Fixpoint unpack_items (f : list item) (bs : bytes) : list pyval :=
  match f with
  | [] => []
  | it :: f' =>
      unpack_item it (firstn (item_size it) bs)
        :: unpack_items f' (skipn (item_size it) bs)
  end.

(** [struct.unpack('>' + f, bs)]: the buffer must have exactly
    [calcsize] bytes; the result is a tuple. *)
Definition unpack (f : list item) (bs : bytes) : result (list pyval) :=
  if Nat.eqb (length bs) (calcsize f)
  then Ok (unpack_items f bs)
  else Raise StructError.

(** The values of the element type a type character declares. *)
Definition in_range (c : tchar) (v : pyval) : bool :=
  match c, v with
  | c_d, PFloat bits => (0 <=? bits) && (bits <? 2 ^ 64)
  | c_bool, PBool _ => true
  | c_H, PInt z => (0 <=? z) && (z <? 2 ^ 16)
  | c_I, PInt z => (0 <=? z) && (z <? 2 ^ 32)
  | c_i, PInt z => (- 2 ^ 31 <=? z) && (z <? 2 ^ 31)
  | _, _ => false
  end.

End Struct.
Import Struct.

(** ** The part of numpy that [unpack] uses *)

Module Numpy.

(** [np.frombuffer(data, np.dtype('>' + c), offset=offset)]: a flat array
    of all the elements that follow the offset. *)
Definition frombuffer (data : bytes) (c : tchar) (offset : nat)
  : result (list pyval) :=
  if (length data <? offset)%nat then Raise (ValueError OffsetOutOfRange)
  else
    let s := (length data - offset)%nat in
    if negb (Nat.eqb (s mod width c) 0)
    then Raise (ValueError BufferSizeNotMultiple)
    else Ok (unpack_items (repeat (One c) (s / width c)) (skipn offset data)).

(** [array.reshape(d0, d1)] *)
Definition reshape (a : list pyval) (d0 d1 : nat) : result ndarray :=
  if Nat.eqb (d0 * d1) (length a)
  then Ok {| shape := (d0, d1); flat := a |}
  else Raise (ValueError (CannotReshape (length a) (d0, d1))).

(** [array[i][j]] *)
Definition get (a : ndarray) (i j : nat) : option pyval :=
  if (i <? fst (shape a))%nat && (j <? snd (shape a))%nat
  then nth_error (flat a) (i * snd (shape a) + j)
  else None.

End Numpy.

(** ** class TensormeterData *)

Module TensormeterData.

Definition LUT_items : list (string * (nat * tchar)) :=
  [ ("avgt", (0, c_d)); ("lfrq", (0, c_d)); ("vamp", (0, c_d));
    ("vpro", (0, c_d)); ("camp", (0, c_d)); ("cpro", (0, c_d));
    ("virg", (0, c_d)); ("cudc", (0, c_d)); ("vodc", (0, c_d));
    ("vorg", (0, c_d)); ("crng", (0, c_d)); ("sres", (0, c_d));
    ("aaup", (0, c_bool)); ("tcai", (0, c_bool)); ("refe", (0, c_bool));
    ("cmod", (0, c_H)); ("amod", (0, c_H)); ("mod?", (0, c_H));
    ("trmo", (0, c_I)); ("meas", (0, c_i));
    ("swit", (1, c_I)); ("selc", (1, c_i)); ("puar", (1, c_d));
    ("newd", (2, c_d)); ("alld", (2, c_d));
    ("mult", (0, c_H)); ("auup", (0, c_bool)) ]%nat.

Definition LUT : gmap string (nat * tchar) := list_to_map LUT_items.

(** [__init__]: every key of the table maps to [None], TENS to [''] . *)
Definition init : gmap string decoded :=
  <["TENS" := DVal (PStr "")]> ((fun _ => DVal PNone) <$> LUT).

Definition pack (cmd : string) (data : pyval) : result bytes :=
  let? entry := of_option (KeyError cmd) (LUT !! cmd) in
  let '(dims, fmt) := entry in
  match dims with
  | O => Struct.pack [One fmt] [data]
  | 1%nat =>
      let? count := py_len data in
      let? items := py_iter data in
      Struct.pack (One c_I :: repeat (One fmt) count)
                  (PInt (Z.of_nat count) :: items)
  | _ =>
      (* never need to send more than 1d *)
      Raise NotImplementedError
  end.

(** The single unsigned field of a one-item tuple. *)
Definition item_nat (v : pyval) : nat :=
  match v with
  | PInt z => Z.to_nat z
  | _ => 0
  end.

Definition unpack (cmd : string) (data : bytes) : result decoded :=
  if String.eqb cmd "TENS" then
    let? text := of_option UnicodeDecodeError (decode_ascii data) in
    Ok (DVal (PStr (cmd ++ text)))
  else
    let? entry := of_option (KeyError cmd) (LUT !! cmd) in
    let '(dims, fmt) := entry in
    match dims with
    | O =>
        let? t := Struct.unpack [One fmt] data in
        Ok (DVal (nth 0 t PNone))
    | 1%nat =>
        let? t := Struct.unpack [One c_I] (firstn 4 data) in
        let count := item_nat (nth 0 t PNone) in
        let? elems := Struct.unpack (repeat (One fmt) count) (skipn 4 data) in
        Ok (DVal (PSeq elems))
    | 2%nat =>
        let? t := Struct.unpack [One c_I; One c_I] (firstn 8 data) in
        let rows := item_nat (nth 0 t PNone) in
        let cols := item_nat (nth 1 t PNone) in
        let? array := Numpy.frombuffer data fmt 8 in
        let? a := Numpy.reshape array cols rows in
        Ok (DArray a)
    | _ => Raise NotImplementedError
    end.

(** [update] on the data dictionary [d]: the outcome and the dictionary
    afterwards. *)
Definition update (cmd : string) (data : bytes) (d : gmap string decoded)
  : result unit * gmap string decoded :=
  match d !! cmd with
  | None => (Raise (ValueError (UnknownDataField cmd (length data))), d)
  | Some _ =>
      match unpack cmd data with
      | Ok v => (Ok tt, <[cmd := v]> d)
      | Raise e => (Raise e, d)
      end
  end.

(** The two header fields of a matrix payload, as [unpack] reads them. *)
Definition header_rows (data : bytes) : nat :=
  Z.to_nat (be_int (firstn 4 data)).
Definition header_cols (data : bytes) : nat :=
  Z.to_nat (be_int (firstn 4 (skipn 4 data))).

(** A value of the shape and element type the table declares for a
    field: a scalar of the element type for dimension 0, a sequence of
    fewer than 2^32 such elements for dimension 1. *)
Definition well_shaped (dims : nat) (fmt : tchar) (v : pyval) : bool :=
  match dims, v with
  | O, _ => in_range fmt v
  | 1%nat, PSeq l => forallb (in_range fmt) l && (Z.of_nat (length l) <? 2 ^ 32)
  | _, _ => false
  end.

End TensormeterData.

(** ** class TensormeterRTM1Client *)

Module Client.

(** The TCP socket and its selector registration.  [rx] holds the segments
    the peer sends, in arrival order; a [recv] never crosses a segment
    boundary.  [fin] tells whether the peer shuts the connection down after
    the last segment ([recv] then returns [b'']) or stays silent
    ([select] then blocks forever).  [tx] lists the buffers handed to
    [socket.send], oldest first. *)
Record socket : Type := mk_socket {
  rx : list bytes;
  fin : bool;
  tx : list bytes;
  closed : bool
}.

Inductive log_record : Type :=
| InfoConnecting
| DebugReceived (cmd : string) (length : Z)
| ErrorUpdating (cmd : string) (exc : exn)
| ErrorRemoteShutDown
| DebugSend (cmd : string) (msg : bytes).

Record client : Type := mk_client {
  data : gmap string decoded;     (* self._tensordata.data *)
  data_ready_event : bool;        (* self._data_ready_event *)
  stopped : bool;                 (* self._stopped *)
  sock : socket;                  (* self._s, self._sel, self._selreg *)
  log : list log_record           (* self._log, oldest first *)
}.

Definition set_data (d : gmap string decoded) (c : client) : client :=
  mk_client d (data_ready_event c) (stopped c) (sock c) (log c).
Definition set_data_ready_event (b : bool) (c : client) : client :=
  mk_client (data c) b (stopped c) (sock c) (log c).
Definition set_stopped (b : bool) (c : client) : client :=
  mk_client (data c) (data_ready_event c) b (sock c) (log c).
Definition set_sock (s : socket) (c : client) : client :=
  mk_client (data c) (data_ready_event c) (stopped c) s (log c).
Definition add_log (r : log_record) (c : client) : client :=
  mk_client (data c) (data_ready_event c) (stopped c) (sock c) (log c ++ [r]).

(** How a method call ends: it returns, raises, parks forever in
    [select], or the model runs out of loop fuel. *)
Inductive outcome (A : Type) : Type :=
| Done (a : A)
| Throw (e : exn)
| Blocked
| OutOfFuel.
Arguments Done {A} a.
Arguments Throw {A} e.
Arguments Blocked {A}.
Arguments OutOfFuel {A}.

(** A method: the outcome and the client afterwards. *)
Definition M (A : Type) : Type := client -> outcome A * client.

Definition ret {A} (a : A) : M A := fun c => (Done a, c).

Definition bind {A B} (m : M A) (k : A -> M B) : M B :=
  fun c =>
    match m c with
    | (Done a, c') => k a c'
    | (Throw e, c') => (Throw e, c')
    | (Blocked, c') => (Blocked, c')
    | (OutOfFuel, c') => (OutOfFuel, c')
    end.

Notation "'let*' x ':=' m 'in' k" := (bind m (fun x => k))
  (at level 10, x name, m at level 200, k at level 200).
Notation "m ';;' k" := (bind m (fun _ => k))
  (at level 100, k at level 200, right associativity, only parsing).

Definition lift {A} (r : result A) : M A :=
  fun c =>
    match r with
    | Ok a => (Done a, c)
    | Raise e => (Throw e, c)
    end.

Definition get : M client := fun c => (Done c, c).
Definition modify (f : client -> client) : M unit := fun c => (Done tt, f c).
Definition logger (r : log_record) : M unit := modify (add_log r).

(** [try: body except ValueError as exc: handler(exc)] *)
Definition try_except_ValueError {A} (body : M A) (handler : exn -> M A)
  : M A :=
  fun c =>
    match body c with
    | (Throw e, c') =>
        if is_ValueError e then handler e c' else (Throw e, c')
    | r => r
    end.

Fixpoint for_each {A} (l : list A) (body : A -> M unit) : M unit :=
  match l with
  | [] => ret tt
  | x :: l' => body x ;; for_each l' body
  end.

(** *** The socket *)

(** The segments still to deliver, empty ones dropped. *)
Fixpoint pending (segs : list bytes) : list bytes :=
  match segs with
  | [] :: segs' => pending segs'
  | _ => segs
  end.

(** [self._s.recv(n)] on the non-blocking socket. *)
Definition sock_recv (n : Z) (s : socket) : result bytes * socket :=
  if n <? 0 then (Raise (ValueError NegativeBuffersize), s)
  else if n =? 0 then (Ok [], s)
  else if closed s then (Raise OSError, s)
  else
    match pending (rx s) with
    | [] => if fin s
            then (Ok [], mk_socket [] (fin s) (tx s) (closed s))
            else (Raise BlockingIOError, s)
    | seg :: rest =>
        let n' := Z.to_nat n in
        (Ok (firstn n' seg),
         mk_socket (skipn n' seg :: rest) (fin s) (tx s) (closed s))
    end.

Definition recv (n : Z) : M bytes :=
  fun c =>
    let '(r, s) := sock_recv n (sock c) in
    lift r (set_sock s c).

Definition push_tx (msg : bytes) (s : socket) : socket :=
  mk_socket (rx s) (fin s) (tx s ++ [msg]) (closed s).

(** [self._s.send(msg)] *)
Definition sock_send (msg : bytes) : M unit :=
  fun c =>
    if closed (sock c) then (Throw OSError, c)
    else (Done tt, set_sock (push_tx msg (sock c)) c).

(** [self._sel.select()]: one event once the socket is readable (data
    pending or the peer has shut down). *)
Definition select : M (list unit) :=
  fun c =>
    if closed (sock c) then (Throw (ValueError ClosedSelector), c)
    else
      match pending (rx (sock c)) with
      | [] => if fin (sock c) then (Done [tt], c) else (Blocked, c)
      | _ :: _ => (Done [tt], c)
      end.

(** [close]: unregister, close the selector, close the socket. *)
Definition close : M unit :=
  fun c =>
    let s := sock c in
    if closed s then (Throw (KeyError "fd"), c)
    else (Done tt, set_sock (mk_socket (rx s) (fin s) (tx s) true) c).

(** *** _reader *)

(** [while len(data) != length: select(); data += recv(length - len(data))] *)
Fixpoint recv_rest (fuel : nat) (length : Z) (data : bytes) : M bytes :=
  if Z.of_nat (List.length data) =? length then ret data
  else
    match fuel with
    | O => fun c => (OutOfFuel, c)
    | S fuel' =>
        select ;;
        let* more := recv (length - Z.of_nat (List.length data)) in
        recv_rest fuel' length (data ++ more)
    end.

Definition data_ready_markers : list string := ["newd"; "alld"].

(** The body of [for event in events]. *)
Definition reader_event (fuel : nat) : M unit :=
  let* msglen := recv 4 in
  if negb (Nat.eqb (List.length msglen) 0) then
    let* t := lift (Struct.unpack [One c_I] msglen) in
    let length :=
      match nth 0 t PNone with PInt z => z | _ => 0 end - 4 in
    let* raw := recv 4 in
    let* cmd := lift (of_option UnicodeDecodeError (decode_ascii raw)) in
    let* data0 := recv length in
    let* data := recv_rest fuel length data0 in
    logger (DebugReceived cmd length) ;;
    (if negb (Nat.eqb (List.length data) 0) then
       try_except_ValueError
         (fun c =>
            let '(r, d) := TensormeterData.update cmd data (Client.data c) in
            lift r (set_data d c))
         (fun exc => logger (ErrorUpdating cmd exc))
     else ret tt) ;;
    (if existsb (String.eqb cmd) data_ready_markers
     then modify (set_data_ready_event true)
     else ret tt)
  else
    (* connection closed on remote end *)
    logger ErrorRemoteShutDown ;;
    modify (set_stopped true) ;;
    close.

Fixpoint reader (fuel : nat) : M unit :=
  let* c := get in
  if stopped c then ret tt
  else
    match fuel with
    | O => fun c => (OutOfFuel, c)
    | S fuel' =>
        let* events := select in
        for_each events (fun _ => reader_event fuel') ;;
        reader fuel'
    end.

(** *** The façade *)

Definition send (cmd : string) (data : pyval) : M unit :=
  let* data_bytes := (if truthy data then lift (TensormeterData.pack cmd data)
                      else ret []) in
  let* cmd_bytes := lift (of_option UnicodeEncodeError (encode_ascii cmd)) in
  let count := (List.length cmd_bytes + List.length data_bytes)%nat in
  let* head := lift (Struct.pack [One c_I; Str (String.length cmd)]
                                 [PInt (Z.of_nat count); PBytes cmd_bytes]) in
  let msg := head ++ data_bytes in
  logger (DebugSend cmd msg) ;;
  sock_send msg.

Definition measure (nmeas : pyval) : M unit := send "meas" nmeas.

Definition select_channels (channels : pyval) : M unit := send "selc" channels.

Definition clear_data : M unit := send "cldt" PNone.

(** [self._data_ready_event.wait(timeout)]: [env timeout c] is the client
    as the receive thread has left it when the wait returns; the wait
    returns the flag. *)
Definition event_wait (env : Z -> client -> client) (timeout : Z) : M bool :=
  fun c => let c' := env timeout c in (Done (data_ready_event c'), c').

Definition get_data (env : Z -> client -> client) (timeout : Z)
  (all_data : bool) : M decoded :=
  let cmd := if all_data then "alld" else "newd" in
  send cmd PNone ;;
  let* signalled := event_wait env timeout in
  if signalled then
    modify (set_data_ready_event false) ;;
    let* c := get in
    lift (of_option (KeyError cmd) (data c !! cmd))
  else
    lift (Raise TimeoutError).

(** [__init__] with [connect]: a fresh data dictionary, an open socket to
    a peer that will send [peer_rx], and the identity query. *)
Definition connected (peer_rx : list bytes) (peer_fin : bool) : client :=
  mk_client TensormeterData.init false false
            (mk_socket peer_rx peer_fin [] false) [InfoConnecting].

Definition new (peer_rx : list bytes) (peer_fin : bool)
  : outcome unit * client :=
  send "*IDN?" PNone (connected peer_rx peer_fin).

(** *** States and messages the properties refer to *)

(** The message [send] hands to the socket for a payload. *)
Definition framed (cmd : string) (payload : bytes) : bytes :=
  be_bytes 4 (Z.of_nat (String.length cmd + length payload))
    ++ ascii_bytes cmd ++ payload.

Definition sent (cmd : string) (payload : bytes) (c : client) : client :=
  set_sock (push_tx (framed cmd payload) (sock c))
           (add_log (DebugSend cmd (framed cmd payload)) c).

(** The client after the remote end has shut down. *)
Definition shut_down (c : client) : client :=
  set_sock (mk_socket [] true (tx (sock c)) true)
           (set_stopped true (add_log ErrorRemoteShutDown c)).

(** The client after a message with code [cmd] and no payload, the
    socket being left as [s]. *)
Definition received_empty (cmd : string) (s : socket) (c : client) : client :=
  let c' := add_log (DebugReceived cmd 0) (set_sock s c) in
  if existsb (String.eqb cmd) data_ready_markers
  then set_data_ready_event true c'
  else c'.

(** The code [get_data] requests. *)
Definition request_code (all_data : bool) : string :=
  if all_data then "alld" else "newd".

(** The receive thread, run until it blocks, as the environment of a wait. *)
Definition reader_env (fuel : nat) (timeout : Z) (c : client) : client :=
  snd (reader fuel c).

End Client.

(** ** Sample wire data *)

Module Samples.

(** The float64 values 1.0 .. 6.0, big-endian. *)
Definition six_doubles : bytes :=
  concat (map (be_bytes 8)
              [0x3FF0000000000000; 0x4000000000000000; 0x4008000000000000;
               0x4010000000000000; 0x4014000000000000; 0x4018000000000000]).

(** rows = 2, cols = 3 followed by five float64 elements only. *)
Definition five_doubles : bytes := firstn 40 six_doubles.

(** avgt (a float64 field) with a payload of three bytes, then meas = 5. *)
Definition short_avgt : bytes :=
  [x00; x00; x00; x07; x61; x76; x67; x74; x00; x00; x00].
Definition meas_5 : bytes :=
  [x00; x00; x00; x08; x6d; x65; x61; x73; x00; x00; x00; x05].
(** volt (not a field) with a payload of one byte. *)
Definition volt_1 : bytes :=
  [x00; x00; x00; x05; x76; x6f; x6c; x74; x01].
(** newd announcing rows = 2, cols = 3 and carrying one element. *)
Definition short_newd : bytes :=
  [x00; x00; x00; x14; x6e; x65; x77; x64;
   x00; x00; x00; x02; x00; x00; x00; x03;
   x3f; xf0; x00; x00; x00; x00; x00; x00].

(** The reply 00 00 00 14 "newd" rows=1 cols=1 1.0 . *)
Definition newd_reply : bytes :=
  [x00; x00; x00; x14; x6e; x65; x77; x64;
   x00; x00; x00; x01; x00; x00; x00; x01;
   x3f; xf0; x00; x00; x00; x00; x00; x00].

End Samples.
Import Samples.

(** ** Payloads on the wire *)

Module Wire.

Import TensormeterData.

(** The payloads [unpack] accepts for a field of dimension 0 or 1. *)
Definition wire_shaped (dims : nat) (fmt : tchar) (data : bytes) : bool :=
  match dims with
  | O => Nat.eqb (length data) (width fmt)
  | 1%nat => (4 <=? length data)%nat
             && Nat.eqb (length data - 4) (header_rows data * width fmt)
  | _ => false
  end.

End Wire.

(** ** Attribute access *)

Module Access.

Import Client.

(** What [getattr(client, name)] gives for a name that is no regular
    attribute of the client. *)
Inductive attribute : Type :=
| Attr (v : decoded)
| AttributeError.

(** [__getattr__] *)
Definition getattr (cmd : string) (c : client) : attribute :=
  match data c !! cmd with
  | Some v => Attr v
  | None => AttributeError
  end.

(** The [IDN] property. *)
Definition IDN (c : client) : result decoded :=
  of_option (KeyError "TENS") (data c !! "TENS").

End Access.

(** ** The receive loop, message by message *)

Module Frames.

Import Client.

(** The data-ready event is set for the two marker codes. *)
Definition mark (cmd : string) (c : client) : client :=
  if existsb (String.eqb cmd) data_ready_markers
  then set_data_ready_event true c
  else c.

(** The client once the loop body has read a whole message, the socket
    being left as [s]. *)
Definition received (cmd : string) (payload : bytes) (s : socket) (c : client)
  : client :=
  add_log (DebugReceived cmd (Z.of_nat (length payload))) (set_sock s c).

(** What the loop body does with a message it has read: nothing for an
    empty payload, else the update, whose ValueError is logged and whose
    other exceptions escape. *)
Definition handled (cmd : string) (payload : bytes) (s : socket) (c : client)
  : outcome unit * client :=
  let c1 := received cmd payload s c in
  match payload with
  | [] => (Done tt, mark cmd c1)
  | _ :: _ =>
      match TensormeterData.update cmd payload (data c) with
      | (Ok _, d) => (Done tt, mark cmd (set_data d c1))
      | (Raise e, _) =>
          if is_ValueError e
          then (Done tt, mark cmd (add_log (ErrorUpdating cmd e) c1))
          else (Throw e, c1)
      end
  end.

(** A message as the peer writes it. *)
Definition frame_of (m : string * bytes) : bytes := framed (fst m) (snd m).

(** The dictionary after a message: an empty payload and a failed update
    leave it as it was. *)
Definition store (d : gmap string decoded) (m : string * bytes)
  : gmap string decoded :=
  match snd m with
  | [] => d
  | _ :: _ => snd (TensormeterData.update (fst m) (snd m) d)
  end.

(** A message the loop body gets through: a four-character ASCII code, a
    length that fits the prefix, and a payload whose decoding raises
    nothing but a ValueError. *)
Definition survivable (m : string * bytes) : bool :=
  let '(cmd, payload) := m in
  Nat.eqb (String.length cmd) 4
  && forallb is_ascii_byte (ascii_bytes cmd)
  && (Z.of_nat (4 + length payload) <? 2 ^ 32)
  && match payload with
     | [] => true
     | _ :: _ =>
         match TensormeterData.init !! cmd with
         | None => true
         | Some _ =>
             match TensormeterData.unpack cmd payload with
             | Ok _ => true
             | Raise e => is_ValueError e
             end
         end
     end.

(** What the receive loop leaves alone: the keys of the dictionary, the
    transmitted messages and the peer's shutdown flag; the data-ready
    event, the stop flag and the closed flag are never reset, and the log
    only grows. *)
Definition kept (c c' : client) : Prop :=
  dom (data c') = dom (data c)
  /\ tx (sock c') = tx (sock c)
  /\ fin (sock c') = fin (sock c)
  /\ (data_ready_event c = true -> data_ready_event c' = true)
  /\ (stopped c = true -> stopped c' = true)
  /\ (closed (sock c) = true -> closed (sock c') = true)
  /\ exists l, log c' = log c ++ l.

(** A method that keeps all of this, however it ends. *)
Definition keeps {A} (m : M A) : Prop := forall c, kept c (snd (m c)).

(** An idle receive thread: the client is as the caller left it when the
    wait returns. *)
Definition reader_env_0 (timeout : Z) (c : client) : client := c.

End Frames.

(** * Properties *)

(** ** Big-endian integers *)

Section BigEndian.

Lemma Z_of_byte_range (b : byte) : 0 <= Z_of_byte b < 256.
Proof.
  unfold Z_of_byte. pose proof (Byte.to_N_bounded b). lia.
Qed.

Lemma Z_of_byte_of_Z (z : Z) : Z_of_byte (byte_of_Z z) = z mod 256.
Proof.
  unfold Z_of_byte, byte_of_Z.
  pose proof (Z.mod_pos_bound z 256 ltac:(lia)) as Hr.
  destruct (Byte.of_N (Z.to_N (z mod 256))) as [b|] eqn:E.
  - apply Byte.to_of_N in E. rewrite E. lia.
  - apply Byte.of_N_None_iff in E. lia.
Qed.

Lemma be_bytes_length (w : nat) (z : Z) : length (be_bytes w z) = w.
Proof. induction w as [|w IH]; simpl; [reflexivity | now rewrite IH]. Qed.

Lemma be_int_be_bytes (w : nat) (z : Z) :
  be_int (be_bytes w z) = z mod 256 ^ Z.of_nat w.
Proof.
  induction w as [|w IH].
  - simpl. now rewrite Z.mod_1_r.
  - cbn [be_bytes be_int]. rewrite be_bytes_length, IH, Z_of_byte_of_Z.
    rewrite Nat2Z.inj_succ, Z.pow_succ_r by lia.
    rewrite (Z.mul_comm 256).
    rewrite Z.rem_mul_r by lia. lia.
Qed.

Lemma be_int_be_bytes_small (w : nat) (z : Z) :
  0 <= z < 256 ^ Z.of_nat w -> be_int (be_bytes w z) = z.
Proof. intros H. rewrite be_int_be_bytes. now apply Z.mod_small. Qed.

End BigEndian.

(** ** The struct codec *)

Section StructCodec.

Ltac range H :=
  apply andb_true_iff in H as [?Hlo ?Hhi];
  first [apply Z.leb_le in Hlo | idtac];
  first [apply Z.ltb_lt in Hhi | idtac].

Lemma pack_int_in_range (w : nat) (lo hi z : Z) :
  lo <= z <= hi ->
  pack_int w lo hi (PInt z) = Ok (be_bytes w (z mod 256 ^ Z.of_nat w)).
Proof.
  intros [H1 H2]. unfold pack_int, as_int.
  apply Z.leb_le in H1, H2. now rewrite H1, H2.
Qed.

Lemma pack_one_roundtrip (c : tchar) (v : pyval) :
  in_range c v = true ->
  exists bs, pack_one c v = Ok bs /\ length bs = width c /\ unpack_one c bs = v.
Proof.
  intros H. destruct c, v; try discriminate H; unfold in_range in H.
  - range H. eexists. split; [reflexivity|]. split; [apply be_bytes_length|].
    unfold unpack_one. rewrite be_int_be_bytes_small; [reflexivity|].
    change (256 ^ Z.of_nat 8) with (2 ^ 64). lia.
  - eexists. split; [reflexivity|]. split; [apply be_bytes_length|].
    now destruct b.
  - range H. unfold pack_one. rewrite pack_int_in_range by lia.
    eexists. split; [reflexivity|]. split; [apply be_bytes_length|].
    unfold unpack_one. rewrite be_int_be_bytes, Z.mod_mod by lia.
    change (256 ^ Z.of_nat 2) with (2 ^ 16). rewrite Z.mod_small by lia.
    reflexivity.
  - range H. unfold pack_one. rewrite pack_int_in_range by lia.
    eexists. split; [reflexivity|]. split; [apply be_bytes_length|].
    unfold unpack_one. rewrite be_int_be_bytes, Z.mod_mod by lia.
    change (256 ^ Z.of_nat 4) with (2 ^ 32). rewrite Z.mod_small by lia.
    reflexivity.
  - range H. unfold pack_one. rewrite pack_int_in_range by lia.
    eexists. split; [reflexivity|]. split; [apply be_bytes_length|].
    unfold unpack_one. rewrite be_int_be_bytes, Z.mod_mod by lia.
    change (256 ^ Z.of_nat 4) with (2 ^ 32). f_equal.
    destruct (Z.ltb_spec z 0) as [Hneg|Hpos].
    + rewrite <- (Z.mod_add z 1) by lia.
      rewrite Z.mod_small by lia.
      destruct (Z.leb_spec (2 ^ 31) (z + 1 * 2 ^ 32)); lia.
    + rewrite Z.mod_small by lia.
      destruct (Z.leb_spec (2 ^ 31) z); lia.
Qed.

(** Packing [n] elements of one type and unpacking them again. *)
Lemma pack_repeat_roundtrip (c : tchar) (l : list pyval) :
  forallb (in_range c) l = true ->
  exists bs,
    Struct.pack (repeat (One c) (length l)) l = Ok bs
    /\ length bs = (length l * width c)%nat
    /\ unpack_items (repeat (One c) (length l)) bs = l.
Proof.
  induction l as [|v l IH]; intros H.
  - exists []. now repeat split.
  - cbn [forallb] in H. apply andb_true_iff in H as [Hv Hl].
    destruct (pack_one_roundtrip c v Hv) as (b & Hb & Hlen & Hun).
    destruct (IH Hl) as (bs & Hbs & Hlens & Huns).
    exists (b ++ bs). cbn [length repeat Struct.pack pack_item].
    rewrite Hb. cbn [rbind]. rewrite Hbs. cbn [rbind].
    split; [reflexivity|]. split.
    + rewrite length_app. lia.
    + cbn [unpack_items item_size unpack_item]. rewrite <- Hlen.
      rewrite take_app_length, drop_app_length. now rewrite Hun, Huns.
Qed.

Lemma calcsize_repeat (c : tchar) (n : nat) :
  calcsize (repeat (One c) n) = (n * width c)%nat.
Proof. induction n as [|n IH]; cbn [repeat calcsize item_size]; lia. Qed.

End StructCodec.

(** ** TensormeterData: pack, unpack, update *)

Section Codec.

Import TensormeterData.

Lemma LUT_not_TENS (cmd : string) (e : nat * tchar) :
  LUT !! cmd = Some e -> String.eqb cmd "TENS" = false.
Proof.
  intros H. destruct (String.eqb_spec cmd "TENS") as [->|]; [|reflexivity].
  vm_compute in H. discriminate H.
Qed.

Lemma unpack_single (c : tchar) (b : bytes) :
  length b = width c ->
  Struct.unpack [One c] b = Ok [unpack_one c b].
Proof.
  intros Hlen. unfold Struct.unpack. cbn [calcsize item_size].
  rewrite Hlen, Nat.add_0_r, Nat.eqb_refl.
  cbn [unpack_items item_size unpack_item].
  now rewrite <- Hlen, firstn_all.
Qed.

(** C1. Codec round trip: for every field of the table of dimension 0 and
    every value of its element type, and for every field of dimension 1
    and every sequence of fewer than 2^32 elements of its element type,
    [pack] succeeds and [unpack] of the packed bytes gives the value
    back. *)
Theorem codec_roundtrip (cmd : string) (dims : nat) (fmt : tchar) (v : pyval) :
  LUT !! cmd = Some (dims, fmt) ->
  well_shaped dims fmt v = true ->
  exists bs, pack cmd v = Ok bs /\ unpack cmd bs = Ok (DVal v).
Proof.
  intros Hlut Hv. unfold pack, unpack.
  rewrite (LUT_not_TENS _ _ Hlut), Hlut. cbn [of_option rbind].
  destruct dims as [|[|dims]]; cbn [well_shaped] in Hv.
  - destruct (pack_one_roundtrip fmt v Hv) as (b & Hb & Hlen & Hun).
    exists b. cbn [Struct.pack pack_item]. rewrite Hb. cbn [rbind].
    rewrite app_nil_r. split; [reflexivity|].
    rewrite (unpack_single _ _ Hlen). cbn [rbind nth]. now rewrite Hun.
  - destruct v as [| | | | | |l]; try discriminate Hv.
    apply andb_true_iff in Hv as [Hl Hn]. apply Z.ltb_lt in Hn.
    destruct (pack_one_roundtrip c_I (PInt (Z.of_nat (length l))))
      as (b & Hb & Hlen & Hun).
    { unfold in_range. apply andb_true_iff.
      split; [apply Z.leb_le | apply Z.ltb_lt]; lia. }
    destruct (pack_repeat_roundtrip fmt l Hl) as (bs & Hbs & Hlens & Huns).
    exists (b ++ bs). cbn [py_len py_iter rbind Struct.pack pack_item].
    rewrite Hb. cbn [rbind]. rewrite Hbs. cbn [rbind].
    split; [reflexivity|].
    change 4%nat with (width c_I). rewrite <- Hlen.
    rewrite take_app_length, drop_app_length.
    rewrite (unpack_single _ _ Hlen). cbn [rbind nth]. rewrite Hun.
    cbn [item_nat]. rewrite Nat2Z.id.
    unfold Struct.unpack. rewrite calcsize_repeat, Hlens, Nat.eqb_refl.
    cbn [rbind]. now rewrite Huns.
  - destruct v; discriminate Hv.
Qed.

Lemma codec_roundtrip_witness :
  (LUT !! "selc" = Some (1%nat, c_i)
   /\ well_shaped 1 c_i (PSeq [PInt 1; PInt (-2)]) = true)
  /\ exists bs, pack "selc" (PSeq [PInt 1; PInt (-2)]) = Ok bs
                /\ unpack "selc" bs = Ok (DVal (PSeq [PInt 1; PInt (-2)])).
Proof.
  split; [split; reflexivity|].
  apply (codec_roundtrip "selc" 1 c_i); reflexivity.
Defined.

(** *** Matrix fields *)

Lemma unpack_items_length (f : list item) (bs : bytes) :
  length (unpack_items f bs) = length f.
Proof.
  revert bs. induction f as [|it f IH]; intros bs; cbn [unpack_items length].
  - reflexivity.
  - now rewrite IH.
Qed.

Lemma unpack_matrix_short (cmd : string) (fmt : tchar) (data : bytes) :
  LUT !! cmd = Some (2%nat, fmt) ->
  (length data < 8)%nat ->
  unpack cmd data = Raise StructError.
Proof.
  intros Hlut Hlen. unfold unpack.
  rewrite (LUT_not_TENS _ _ Hlut), Hlut. cbn [of_option rbind].
  unfold Struct.unpack at 1. rewrite length_take. cbn [calcsize item_size width].
  destruct (Nat.eqb_spec (8 `min` length data) (4 + (4 + 0))) as [E|E];
    [lia | reflexivity].
Qed.

Lemma unpack_matrix_long (cmd : string) (fmt : tchar) (data : bytes) :
  LUT !! cmd = Some (2%nat, fmt) ->
  (8 <= length data)%nat ->
  unpack cmd data =
    let? array := Numpy.frombuffer data fmt 8 in
    let? a := Numpy.reshape array (header_cols data) (header_rows data) in
    Ok (DArray a).
Proof.
  intros Hlut Hlen. unfold unpack.
  rewrite (LUT_not_TENS _ _ Hlut), Hlut. cbn [of_option rbind].
  unfold Struct.unpack at 1. rewrite length_take. cbn [calcsize item_size width].
  destruct (Nat.eqb_spec (8 `min` length data) (4 + (4 + 0))) as [E|E];
    [|lia].
  cbn [rbind unpack_items item_size unpack_item width nth unpack_one item_nat].
  rewrite take_take. change (4 `min` 8)%nat with 4%nat.
  replace (drop 4 (take 8 data)) with (take 4 (drop 4 data))
    by (rewrite take_drop_commute; reflexivity).
  rewrite take_take. change (4 `min` 4)%nat with 4%nat.
  reflexivity.
Qed.

Lemma width_pos (c : tchar) : (0 < width c)%nat.
Proof. destruct c; cbn; lia. Qed.

(** A body of exactly rows * cols elements decodes to the array of shape
    (cols, rows) holding the elements in transmitted order. *)
Lemma unpack_matrix_exact (cmd : string) (fmt : tchar) (data : bytes) :
  LUT !! cmd = Some (2%nat, fmt) ->
  (8 <= length data)%nat ->
  (length data - 8 = header_rows data * header_cols data * width fmt)%nat ->
  unpack cmd data =
    Ok (DArray {| shape := (header_cols data, header_rows data);
                  flat := unpack_items
                            (repeat (One fmt) (header_rows data * header_cols data))
                            (skipn 8 data) |}).
Proof.
  intros Hlut Hlen Hbody. rewrite (unpack_matrix_long _ _ _ Hlut Hlen).
  pose proof (width_pos fmt) as Hw.
  unfold Numpy.frombuffer.
  destruct (Nat.ltb_spec (length data) 8) as [?|_]; [lia|].
  rewrite Hbody, Nat.Div0.mod_mul. cbn [Nat.eqb negb rbind].
  rewrite Nat.div_mul by lia.
  unfold Numpy.reshape. rewrite unpack_items_length, repeat_length.
  rewrite (Nat.mul_comm (header_cols data)), Nat.eqb_refl. reflexivity.
Qed.

(** Any other body is rejected with a [ValueError]. *)
Lemma unpack_matrix_mismatch (cmd : string) (fmt : tchar) (data : bytes) :
  LUT !! cmd = Some (2%nat, fmt) ->
  (8 <= length data)%nat ->
  (length data - 8 <> header_rows data * header_cols data * width fmt)%nat ->
  exists why, unpack cmd data = Raise (ValueError why).
Proof.
  intros Hlut Hlen Hbody. rewrite (unpack_matrix_long _ _ _ Hlut Hlen).
  pose proof (width_pos fmt) as Hw.
  unfold Numpy.frombuffer.
  destruct (Nat.ltb_spec (length data) 8) as [?|_]; [lia|].
  destruct (Nat.eqb_spec ((length data - 8) mod width fmt) 0) as [Hm|Hm];
    cbn [negb rbind]; [|eauto].
  unfold Numpy.reshape. rewrite unpack_items_length, repeat_length.
  destruct (Nat.eqb_spec (header_cols data * header_rows data)
                         ((length data - 8) / width fmt)) as [E|E];
    cbn [rbind]; [|eauto].
  exfalso. apply Hbody.
  apply Nat.Div0.div_exact in Hm. rewrite Hm at 1. rewrite <- E. lia.
Qed.

Lemma header_of_payload (rows cols : nat) (body : bytes) :
  Z.of_nat rows < 2 ^ 32 ->
  Z.of_nat cols < 2 ^ 32 ->
  let data := be_bytes 4 (Z.of_nat rows) ++ be_bytes 4 (Z.of_nat cols) ++ body in
  header_rows data = rows /\ header_cols data = cols
  /\ skipn 8 data = body /\ length data = (8 + length body)%nat.
Proof.
  intros Hr Hc data. subst data. unfold header_rows, header_cols.
  assert (Hl : forall z, length (be_bytes 4 z) = 4%nat)
    by (intros; apply be_bytes_length).
  repeat split.
  - rewrite (take_app_length' _ _ 4 (eq_sym (Hl _))).
    rewrite be_int_be_bytes_small; [apply Nat2Z.id|].
    change (256 ^ Z.of_nat 4) with (2 ^ 32). lia.
  - rewrite (drop_app_length' _ _ 4 (eq_sym (Hl _))).
    rewrite (take_app_length' _ _ 4 (eq_sym (Hl _))).
    rewrite be_int_be_bytes_small; [apply Nat2Z.id|].
    change (256 ^ Z.of_nat 4) with (2 ^ 32). lia.
Qed.

(** C2. Matrix decode: for every matrix field, a payload made of the
    big-endian unsigned 32-bit pair (rows, cols) and rows * cols elements
    decodes to an array with cols rows and rows columns that holds the
    elements in transmitted order (element (i, j) is the transmitted
    element number i * rows + j). *)
Theorem matrix_decode_swaps_axes
  (cmd : string) (fmt : tchar) (rows cols : nat) (body : bytes) :
  LUT !! cmd = Some (2%nat, fmt) ->
  Z.of_nat rows < 2 ^ 32 ->
  Z.of_nat cols < 2 ^ 32 ->
  length body = (rows * cols * width fmt)%nat ->
  exists a,
    unpack cmd (be_bytes 4 (Z.of_nat rows) ++ be_bytes 4 (Z.of_nat cols) ++ body)
      = Ok (DArray a)
    /\ shape a = (cols, rows)
    /\ flat a = unpack_items (repeat (One fmt) (rows * cols)) body
    /\ forall i j, (i < cols)%nat -> (j < rows)%nat ->
         Numpy.get a i j = nth_error (flat a) (i * rows + j).
Proof.
  intros Hlut Hr Hc Hbody.
  destruct (header_of_payload rows cols body Hr Hc) as (Er & Ec & Ed & El).
  eexists. split.
  - rewrite (unpack_matrix_exact _ _ _ Hlut); rewrite ?Er, ?Ec, ?Ed, ?El;
      [reflexivity | lia | lia].
  - cbn [shape flat]. repeat split.
    intros i j Hi Hj. unfold Numpy.get. cbn [shape flat fst snd].
    apply Nat.ltb_lt in Hi, Hj. now rewrite Hi, Hj.
Qed.

Lemma matrix_decode_swaps_axes_witness :
  (LUT !! "newd" = Some (2%nat, c_d)
   /\ Z.of_nat 2 < 2 ^ 32 /\ Z.of_nat 3 < 2 ^ 32
   /\ length six_doubles = (2 * 3 * width c_d)%nat)
  /\ exists a,
    unpack "newd" (be_bytes 4 (Z.of_nat 2) ++ be_bytes 4 (Z.of_nat 3) ++ six_doubles)
      = Ok (DArray a)
    /\ shape a = (3%nat, 2%nat)
    /\ flat a = unpack_items (repeat (One c_d) (2 * 3)) six_doubles
    /\ forall i j, (i < 3)%nat -> (j < 2)%nat ->
         Numpy.get a i j = nth_error (flat a) (i * 2 + j).
Proof.
  split; [repeat split; try reflexivity; lia|].
  apply (matrix_decode_swaps_axes "newd" c_d 2 3 six_doubles);
    try reflexivity; lia.
Defined.

(** rows = 2, cols = 3 and six float64 elements give three rows of two. *)
Example matrix_2_3 :
  unpack "newd" (be_bytes 4 2 ++ be_bytes 4 3 ++ six_doubles)
  = Ok (DArray {| shape := (3%nat, 2%nat);
                  flat := map PFloat
                    [0x3FF0000000000000; 0x4000000000000000; 0x4008000000000000;
                     0x4010000000000000; 0x4014000000000000; 0x4018000000000000] |}).
Proof. vm_compute. reflexivity. Qed.

(** C4 (as amended). Matrix decode has no length check of its own, but
    numpy's [frombuffer] and [reshape] enforce one: for every matrix field,
    a payload shorter than the 8-byte header fails with [struct.error], a
    payload whose length after the header differs from
    rows * cols * element width fails with a [ValueError], and a payload
    whose length after the header equals it decodes to an array of shape
    (cols, rows). *)
Theorem matrix_decode_length_checked (cmd : string) (fmt : tchar) (data : bytes) :
  LUT !! cmd = Some (2%nat, fmt) ->
  match (length data ?= 8)%nat with
  | Lt => unpack cmd data = Raise StructError
  | _ =>
      if Nat.eqb (length data - 8)
                 (header_rows data * header_cols data * width fmt)
      then exists a, unpack cmd data = Ok (DArray a)
                     /\ shape a = (header_cols data, header_rows data)
      else exists why, unpack cmd data = Raise (ValueError why)
  end.
Proof.
  intros Hlut.
  destruct (Nat.compare_spec (length data) 8) as [E|E|E].
  1, 3: destruct (Nat.eqb_spec (length data - 8)
                    (header_rows data * header_cols data * width fmt)) as [B|B].
  1, 3: (eexists; split;
         [apply (unpack_matrix_exact _ _ _ Hlut); [lia | exact B] | reflexivity]).
  1, 2: (apply (unpack_matrix_mismatch _ _ _ Hlut); [lia | exact B]).
  apply (unpack_matrix_short _ _ _ Hlut E).
Qed.

Lemma matrix_decode_length_checked_witness :
  LUT !! "newd" = Some (2%nat, c_d)
  /\ exists why,
       unpack "newd" (be_bytes 4 2 ++ be_bytes 4 3 ++ five_doubles)
       = Raise (ValueError why).
Proof.
  split; [reflexivity|].
  exact (matrix_decode_length_checked
           "newd" c_d (be_bytes 4 2 ++ be_bytes 4 3 ++ five_doubles) eq_refl).
Defined.

(** C4 as stated fails: the length after the header (40) differs from
    rows * cols * 8 = 48 and the decoder returns no value. *)
Lemma matrix_decode_rejects_mismatch :
  let data := be_bytes 4 2 ++ be_bytes 4 3 ++ five_doubles in
  LUT !! "newd" = Some (2%nat, c_d)
  /\ (length data - 8)%nat <> (header_rows data * header_cols data * width c_d)%nat
  /\ unpack "newd" data = Raise (ValueError (CannotReshape 5 (3%nat, 2%nat)))
  /\ ~ exists v, unpack "newd" data = Ok v.
Proof.
  vm_compute. repeat split; try discriminate.
  intros [v Hv]. discriminate Hv.
Qed.

(** *** update *)

(** C6. [update] with a code that is not a key of the data dictionary
    raises the ValueError that carries the code and the number of bytes,
    and leaves the dictionary as it was. *)
Theorem update_unknown_field
  (cmd : string) (bs : bytes) (d : gmap string decoded) :
  d !! cmd = None ->
  update cmd bs d = (Raise (ValueError (UnknownDataField cmd (length bs))), d).
Proof. intros H. unfold update. now rewrite H. Qed.

Lemma update_unknown_field_witness :
  init !! "volt" = None
  /\ update "volt" [x01; x02] init
      = (Raise (ValueError (UnknownDataField "volt" 2)), init).
Proof.
  split; [reflexivity|].
  apply (update_unknown_field "volt" [x01; x02] init). reflexivity.
Defined.

(** The keys of the fresh dictionary: TENS and the codes of the table. *)
Lemma init_lookup (cmd : string) :
  init !! cmd = None <-> cmd <> "TENS" /\ LUT !! cmd = None.
Proof.
  unfold init. rewrite lookup_insert_None, lookup_fmap, fmap_None.
  intuition congruence.
Qed.

(** [update] never adds or removes a key, whether it fails or not. *)
Lemma update_keys (cmd : string) (bs : bytes) (d : gmap string decoded) :
  dom (snd (update cmd bs d)) = dom d.
Proof.
  unfold update. destruct (d !! cmd) as [old|] eqn:E; [|reflexivity].
  destruct (unpack cmd bs); [|reflexivity].
  cbn [snd]. rewrite dom_insert_L.
  apply elem_of_dom_2 in E. apply leibniz_equiv, subseteq_union_1.
  now apply singleton_subseteq_l.
Qed.

End Codec.

(** ** The client: send *)

Section Send.

Import TensormeterData Client.

Lemma ascii_bytes_length (s : string) :
  length (ascii_bytes s) = String.length s.
Proof.
  unfold ascii_bytes. rewrite length_map.
  induction s as [|a s IH]; cbn; [reflexivity | now rewrite IH].
Qed.

(** Every code of the table is four ASCII characters. *)
Lemma LUT_key_ascii (cmd : string) (e : nat * tchar) :
  LUT !! cmd = Some e ->
  encode_ascii cmd = Some (ascii_bytes cmd) /\ String.length cmd = 4%nat.
Proof.
  intros H. apply elem_of_list_to_map_2 in H. unfold LUT_items in H.
  repeat (apply elem_of_cons in H as [H|H];
          [inversion H; subst; split; reflexivity|]).
  inversion H.
Qed.

Lemma send_payload (cmd : string) (v : pyval) (payload : bytes) (c : client) :
  (if truthy v then pack cmd v else Ok []) = Ok payload ->
  encode_ascii cmd = Some (ascii_bytes cmd) ->
  Z.of_nat (String.length cmd + length payload) < 2 ^ 32 ->
  closed (sock c) = false ->
  send cmd v c = (Done tt, sent cmd payload c).
Proof.
  intros Hp He Hn Hc. unfold send, bind.
  assert (Hd : (if truthy v then lift (pack cmd v) else ret []) c
               = (Done payload, c)).
  { destruct (truthy v); [rewrite Hp; reflexivity|].
    injection Hp as <-. reflexivity. }
  rewrite Hd, He. cbn [of_option lift].
  rewrite ascii_bytes_length.
  cbn [Struct.pack pack_item pack_one rbind].
  rewrite pack_int_in_range by lia. cbn [rbind].
  rewrite <- (ascii_bytes_length cmd) at 2 3.
  rewrite firstn_all, Nat.sub_diag. cbn [repeat].
  rewrite !app_nil_r.
  change (256 ^ Z.of_nat 4) with (2 ^ 32). rewrite Z.mod_small by lia.
  unfold logger, modify, sock_send.
  cbn [lift sock add_log]. rewrite Hc.
  unfold sent, framed. rewrite <- app_assoc. reflexivity.
Qed.

(** C5. [send] with a code of the table and a truthy value that [pack]
    accepts hands the socket one message: the 4-byte big-endian length
    4 + len(payload), the four ASCII bytes of the code, and the payload. *)
Theorem send_frames_message
  (cmd : string) (e : nat * tchar) (v : pyval) (payload : bytes) (c : client) :
  LUT !! cmd = Some e ->
  truthy v = true ->
  pack cmd v = Ok payload ->
  Z.of_nat (4 + length payload) < 2 ^ 32 ->
  closed (sock c) = false ->
  length (ascii_bytes cmd) = 4%nat
  /\ send cmd v c = (Done tt, sent cmd payload c)
  /\ tx (sock (sent cmd payload c))
     = tx (sock c)
         ++ [be_bytes 4 (Z.of_nat (4 + length payload))
               ++ ascii_bytes cmd ++ payload].
Proof.
  intros Hlut Hv Hp Hn Hc.
  destruct (LUT_key_ascii _ _ Hlut) as [He Hlen].
  split; [now rewrite ascii_bytes_length|]. split.
  - apply send_payload; rewrite ?Hv, ?Hlen; assumption.
  - unfold sent, framed. rewrite Hlen. reflexivity.
Qed.

(** measure(5) writes 00 00 00 08 6D 65 61 73 00 00 00 05. *)
Lemma send_frames_message_witness :
  (LUT !! "meas" = Some (0%nat, c_i)
   /\ truthy (PInt 5) = true
   /\ pack "meas" (PInt 5) = Ok [x00; x00; x00; x05]
   /\ Z.of_nat (4 + length [x00; x00; x00; x05]) < 2 ^ 32
   /\ closed (sock (connected [] false)) = false)
  /\ tx (sock (snd (measure (PInt 5) (connected [] false))))
     = [[x00; x00; x00; x08; x6d; x65; x61; x73; x00; x00; x00; x05]].
Proof.
  split; [repeat split; try reflexivity; cbn; lia|].
  destruct (send_frames_message "meas" (0%nat, c_i) (PInt 5)
              [x00; x00; x00; x05] (connected [] false)
              eq_refl eq_refl eq_refl eq_refl eq_refl)
    as (_ & Hsend & Htx).
  unfold measure. rewrite Hsend. cbn [snd]. rewrite Htx. reflexivity.
Defined.

(** C10. [send] with a falsy value does what it does with no value: the
    payload is empty.  With a code of the table the message is the length
    prefix 4 and the four bytes of the code. *)
Theorem send_falsy_is_empty
  (cmd : string) (e : nat * tchar) (v : pyval) (c : client) :
  truthy v = false ->
  LUT !! cmd = Some e ->
  closed (sock c) = false ->
  send cmd v c = send cmd PNone c
  /\ send cmd v c = (Done tt, sent cmd [] c)
  /\ tx (sock (sent cmd [] c)) = tx (sock c) ++ [be_bytes 4 4 ++ ascii_bytes cmd].
Proof.
  intros Hv Hlut Hc.
  destruct (LUT_key_ascii _ _ Hlut) as [He Hlen].
  assert (Hs : forall w, truthy w = false ->
                         send cmd w c = (Done tt, sent cmd [] c)).
  { intros w Hw. apply send_payload; rewrite ?Hw, ?Hlen; try easy. }
  repeat split.
  - rewrite (Hs v Hv). symmetry. now apply Hs.
  - now apply Hs.
  - unfold sent, framed. rewrite Hlen, app_nil_r. reflexivity.
Qed.

Lemma send_falsy_is_empty_witness :
  (truthy (PInt 0) = false
   /\ LUT !! "meas" = Some (0%nat, c_i)
   /\ closed (sock (connected [] false)) = false)
  /\ measure (PInt 0) (connected [] false) = send "meas" PNone (connected [] false)
  /\ tx (sock (snd (measure (PInt 0) (connected [] false))))
     = [[x00; x00; x00; x04; x6d; x65; x61; x73]].
Proof.
  split; [repeat split|].
  destruct (send_falsy_is_empty "meas" (0%nat, c_i) (PInt 0) (connected [] false)
              eq_refl eq_refl eq_refl)
    as (Hnone & Hsend & Htx).
  split; [exact Hnone|].
  unfold measure. rewrite Hsend. cbn [snd]. rewrite Htx. reflexivity.
Defined.

(** measure(0), measure(False) and select_channels([]) send no payload. *)
Example falsy_messages :
  let wire m := tx (sock (snd (m (connected [] false)))) in
  wire (measure (PInt 0)) = [[x00; x00; x00; x04; x6d; x65; x61; x73]]
  /\ wire (measure (PBool false)) = [[x00; x00; x00; x04; x6d; x65; x61; x73]]
  /\ wire (select_channels (PSeq [])) = [[x00; x00; x00; x04; x73; x65; x6c; x63]]
  /\ pack "meas" (PInt 0) = Ok [x00; x00; x00; x00]
  /\ pack "selc" (PSeq []) = Ok [x00; x00; x00; x00].
Proof. vm_compute. repeat split. Qed.

End Send.

(** ** The client: the receive loop *)

Section Reader.

Import TensormeterData Client.

(** Closed goals: split the conjunctions, each equation holds by evaluation. *)
Ltac evaluate :=
  repeat match goal with |- _ /\ _ => split end;
  reflexivity.

Lemma pending_head (segs : list bytes) (seg : bytes) (rest : list bytes) :
  pending segs = seg :: rest -> seg <> [].
Proof.
  induction segs as [|s segs IH]; cbn [pending]; [discriminate|].
  destruct s as [|b s]; [exact IH|].
  intros E; injection E as <- _. discriminate.
Qed.

(** [recv(4)] returns [b''] only when the peer has shut down. *)
Lemma recv_zero_bytes (s s' : socket) :
  sock_recv 4 s = (Ok [], s') ->
  closed s = false /\ pending (rx s) = [] /\ fin s = true
  /\ s' = mk_socket [] true (tx s) false.
Proof.
  unfold sock_recv. cbn [Z.ltb Z.eqb Z.compare].
  destruct (closed s) eqn:Hc; [discriminate|].
  destruct (pending (rx s)) as [|seg rest] eqn:Hp.
  - destruct (fin s) eqn:Hf; [|discriminate].
    intros E; injection E as <-. repeat split.
  - apply pending_head in Hp. destruct seg; [contradiction|].
    cbn. discriminate.
Qed.

Lemma reader_unfold (fuel : nat) :
  reader (S fuel) =
    (let* c := get in
     if stopped c then ret tt
     else
       let* events := select in
       for_each events (fun _ => reader_event fuel) ;;
       reader fuel).
Proof. reflexivity. Qed.

(** Once stopped, the loop exits without touching the client. *)
Lemma reader_stopped (fuel : nat) (c : client) :
  stopped c = true -> reader fuel c = (Done tt, c).
Proof.
  intros H. destruct fuel; cbn [reader]; unfold bind, get; now rewrite H.
Qed.

(** C7. When the read of the length prefix returns zero bytes the loop
    logs the shutdown, sets the stop flag, closes the socket and returns;
    the data dictionary and the data-ready event are as they were, and
    the loop, were it entered again, returns at once without touching
    the client. *)
Theorem reader_stops_on_remote_close (fuel : nat) (c : client) (s' : socket) :
  stopped c = false ->
  sock_recv 4 (sock c) = (Ok [], s') ->
  reader (S fuel) c = (Done tt, shut_down c)
  /\ stopped (shut_down c) = true
  /\ closed (sock (shut_down c)) = true
  /\ data (shut_down c) = data c
  /\ data_ready_event (shut_down c) = data_ready_event c
  /\ forall fuel', reader fuel' (shut_down c) = (Done tt, shut_down c).
Proof.
  intros Hs Hr. pose proof (recv_zero_bytes _ _ Hr) as (Hc & Hp & Hf & ->).
  split; [|repeat split; intros; now apply reader_stopped].
  rewrite reader_unfold. unfold bind at 1, get. rewrite Hs.
  unfold bind at 1, select. rewrite Hc, Hp, Hf.
  cbn [for_each]. unfold bind at 1 2. unfold reader_event.
  unfold bind at 1, recv. rewrite Hr. cbn [lift length Nat.eqb negb].
  unfold bind, logger, modify, close, ret.
  cbn [sock set_sock add_log set_stopped closed data data_ready_event
       stopped log tx rx fin].
  now rewrite reader_stopped.
Qed.
Lemma reader_stops_on_remote_close_witness :
  (stopped (connected [] true) = false
   /\ sock_recv 4 (sock (connected [] true))
      = (Ok [], mk_socket [] true [] false))
  /\ reader 1 (connected [] true) = (Done tt, shut_down (connected [] true))
  /\ stopped (shut_down (connected [] true)) = true
  /\ closed (sock (shut_down (connected [] true))) = true
  /\ data (shut_down (connected [] true)) = data (connected [] true)
  /\ data_ready_event (shut_down (connected [] true))
     = data_ready_event (connected [] true)
  /\ forall fuel',
       reader fuel' (shut_down (connected [] true))
       = (Done tt, shut_down (connected [] true)).
Proof.
  split; [split; reflexivity|].
  exact (reader_stops_on_remote_close
           0 (connected [] true) (mk_socket [] true [] false) eq_refl eq_refl).
Defined.

Lemma recv_rest_complete (fuel : nat) (data : bytes) (c : client) :
  recv_rest fuel (Z.of_nat (length data)) data c = (Done data, c).
Proof. destruct fuel; cbn [recv_rest]; now rewrite Z.eqb_refl. Qed.

(** C9. A message whose length prefix is 4 (no payload bytes) is not
    passed to [update]: whatever its code, the loop body returns normally,
    the data dictionary is unchanged and the log gains only the
    "received" record; the data-ready event is set when the code is newd
    or alld and is left alone otherwise. *)
Theorem reader_skips_empty_payload
  (fuel : nat) (c : client) (s1 s2 : socket) (raw : bytes) (cmd : string) :
  sock_recv 4 (sock c) = (Ok (be_bytes 4 4), s1) ->
  sock_recv 4 s1 = (Ok raw, s2) ->
  decode_ascii raw = Some cmd ->
  reader_event fuel c = (Done tt, received_empty cmd s2 c)
  /\ data (received_empty cmd s2 c) = data c
  /\ log (received_empty cmd s2 c) = log c ++ [DebugReceived cmd 0]
  /\ data_ready_event (received_empty cmd s2 c)
     = (existsb (String.eqb cmd) data_ready_markers || data_ready_event c).
Proof.
  intros H1 H2 Hd. split.
  - unfold reader_event. unfold bind at 1, recv at 1. rewrite H1.
    cbn [lift].
    change (negb (length (be_bytes 4 4) =? 0)%nat) with true. cbv iota.
    unfold bind at 1.
    change (Struct.unpack [One c_I] (be_bytes 4 4)) with (Ok [PInt 4]).
    cbn [lift nth]. change (4 - 4) with 0.
    unfold bind at 1, recv at 1. cbn [sock set_sock]. rewrite H2.
    cbn [lift]. unfold bind at 1. rewrite Hd. cbn [of_option lift].
    unfold bind at 1, recv at 1. cbn [sock_recv Z.ltb Z.eqb Z.compare lift].
    unfold bind at 1.
    rewrite (recv_rest_complete fuel []).
    unfold received_empty, bind, logger, modify, ret.
    cbn [length Nat.eqb negb].
    now destruct (existsb (String.eqb cmd) data_ready_markers).
  - unfold received_empty.
    destruct (existsb (String.eqb cmd) data_ready_markers); repeat split.
Qed.

(** The message 00 00 00 04 "volt": a code the dictionary does not know. *)
Lemma reader_skips_empty_payload_witness :
  let c := connected [[x00; x00; x00; x04; x76; x6f; x6c; x74]] false in
  let s1 := mk_socket [[x76; x6f; x6c; x74]] false [] false in
  let s2 := mk_socket [[]] false [] false in
  (sock_recv 4 (sock c) = (Ok (be_bytes 4 4), s1)
   /\ sock_recv 4 s1 = (Ok [x76; x6f; x6c; x74], s2)
   /\ decode_ascii [x76; x6f; x6c; x74] = Some "volt")
  /\ reader_event 0 c = (Done tt, received_empty "volt" s2 c)
  /\ data (received_empty "volt" s2 c) = data c
  /\ log (received_empty "volt" s2 c) = log c ++ [DebugReceived "volt" 0]
  /\ data_ready_event (received_empty "volt" s2 c)
     = (existsb (String.eqb "volt") data_ready_markers || data_ready_event c).
Proof.
  intros c s1 s2. split; [repeat split|].
  exact (reader_skips_empty_payload 0 c s1 s2 [x76; x6f; x6c; x74] "volt"
           eq_refl eq_refl eq_refl).
Defined.

(** A request echoed with no payload sets the event and stores nothing. *)
Example empty_newd_sets_event :
  let c := connected [[x00; x00; x00; x04; x6e; x65; x77; x64]] false in
  fst (reader_event 0 c) = Done tt
  /\ data_ready_event (snd (reader_event 0 c)) = true
  /\ data (snd (reader_event 0 c)) = data c.
Proof. intros c; subst c. evaluate. Qed.

(** *** Failures in the update step *)

(** C3. A scalar payload of the wrong length makes [struct.unpack] raise
    [struct.error], which is no [ValueError]: the handler does not catch
    it, the exception leaves [_reader], nothing is logged for it, and the
    next message, although well-formed, is never stored. *)
Theorem reader_dies_on_short_scalar (fuel : nat) :
  let c := connected [short_avgt; meas_5] true in
  let c' := snd (reader (S fuel) c) in
  is_ValueError StructError = false
  /\ fst (reader (S fuel) c) = Throw StructError
  /\ stopped c' = false
  /\ closed (sock c') = false
  /\ pending (rx (sock c')) = [meas_5]
  /\ data c' = data c
  /\ log c' = log c ++ [DebugReceived "avgt" 3].
Proof.
  intros c c'; subst c c'. destruct fuel as [|fuel]; evaluate.
Qed.

(** What the handler does catch: the ValueError of an unknown code is
    logged and the next message is stored. *)
Example reader_logs_unknown_code :
  let r := fst (reader 3 (connected [volt_1; meas_5] true)) in
  let c' := snd (reader 3 (connected [volt_1; meas_5] true)) in
  r = Done tt
  /\ data c' !! "meas" = Some (DVal (PInt 5))
  /\ log c' = [InfoConnecting;
               DebugReceived "volt" 1;
               ErrorUpdating "volt" (ValueError (UnknownDataField "volt" 1));
               DebugReceived "meas" 4;
               ErrorRemoteShutDown].
Proof. intros r c'; subst r c'. evaluate. Qed.

(** The ValueError numpy raises for a matrix of the wrong size is caught
    in the same way; the event is still set. *)
Example reader_logs_matrix_mismatch :
  let r := fst (reader 3 (connected [short_newd; meas_5] true)) in
  let c' := snd (reader 3 (connected [short_newd; meas_5] true)) in
  r = Done tt
  /\ data c' !! "newd" = Some (DVal PNone)
  /\ data c' !! "meas" = Some (DVal (PInt 5))
  /\ data_ready_event c' = true
  /\ log c' = [InfoConnecting;
               DebugReceived "newd" 16;
               ErrorUpdating "newd"
                 (ValueError (CannotReshape 1 (3%nat, 2%nat)));
               DebugReceived "meas" 4;
               ErrorRemoteShutDown].
Proof. intros r c'; subst r c'. evaluate. Qed.

End Reader.

(** ** The client: get_data *)

Section GetData.

Import TensormeterData Client.

(** C8. [get_data] sends the code alld when [all_data] is true and newd
    otherwise, with no payload, and waits for the data-ready event.  When
    the wait finds the event set, the event is cleared and the value the
    data dictionary holds for that code is returned; when the wait times
    out with the event unset, TimeoutError is raised. *)
Theorem get_data_waits_for_event
  (env : Z -> client -> client) (timeout : Z) (all_data : bool) (c : client) :
  closed (sock c) = false ->
  let cmd := request_code all_data in
  let c1 := env timeout (sent cmd [] c) in
  send cmd PNone c = (Done tt, sent cmd [] c)
  /\ tx (sock (sent cmd [] c)) = tx (sock c) ++ [be_bytes 4 4 ++ ascii_bytes cmd]
  /\ get_data env timeout all_data c =
       if data_ready_event c1
       then lift (of_option (KeyError cmd) (data c1 !! cmd))
                 (set_data_ready_event false c1)
       else (Throw TimeoutError, c1).
Proof.
  intros Hc cmd c1.
  assert (Hs : send cmd PNone c = (Done tt, sent cmd [] c)).
  { apply send_payload; [reflexivity | now destruct all_data | | exact Hc].
    destruct all_data; reflexivity. }
  split; [exact Hs|]. split.
  - destruct all_data; reflexivity.
  - unfold get_data. fold (request_code all_data). fold cmd.
    unfold bind at 1. rewrite Hs.
    unfold bind at 1, event_wait. fold c1.
    destruct (data_ready_event c1); [|reflexivity].
    unfold bind, modify, get. reflexivity.
Qed.

Lemma get_data_waits_for_event_witness :
  closed (sock (connected [newd_reply] false)) = false
  /\ fst (get_data (reader_env 3) 500 false (connected [newd_reply] false))
     = Done (DArray {| shape := (1%nat, 1%nat);
                       flat := [PFloat 0x3FF0000000000000] |})
  /\ data_ready_event
       (snd (get_data (reader_env 3) 500 false (connected [newd_reply] false)))
     = false.
Proof.
  split; [reflexivity|].
  destruct (get_data_waits_for_event
              (reader_env 3) 500 false (connected [newd_reply] false) eq_refl)
    as (_ & _ & ->).
  split; reflexivity.
Defined.

(** With a silent peer the wait times out. *)
Example get_data_timeout :
  fst (get_data (reader_env 3) 500 false (connected [] false))
  = Throw TimeoutError.
Proof. reflexivity. Qed.

(** The wire bytes of the two requests. *)
Example get_data_requests :
  let wire b := tx (sock (snd (get_data (reader_env 3) 500 b (connected [] false)))) in
  wire false = [[x00; x00; x00; x04; x6e; x65; x77; x64]]
  /\ wire true = [[x00; x00; x00; x04; x61; x6c; x6c; x64]].
Proof. vm_compute. split; reflexivity. Qed.

End GetData.

(** * Further properties of the code *)

(** ** Wire bytes determine the value: decoding then encoding *)

Section WireCodec.

Import TensormeterData.

Lemma Ok_inj {A} (a b : A) : Ok a = Ok b -> a = b.
Proof. congruence. Qed.

Lemma byte_of_Z_of_byte (b : byte) : byte_of_Z (Z_of_byte b) = b.
Proof.
  unfold byte_of_Z. pose proof (Z_of_byte_range b) as Hr.
  rewrite Z.mod_small by exact Hr. unfold Z_of_byte.
  now rewrite N2Z.id, Byte.of_to_N.
Qed.

Lemma byte_of_Z_add_mul (x a : Z) : byte_of_Z (a * 256 + x) = byte_of_Z x.
Proof.
  unfold byte_of_Z. now rewrite Z.add_comm, Z.mod_add by lia.
Qed.

Lemma be_int_range (bs : bytes) : 0 <= be_int bs < 256 ^ Z.of_nat (length bs).
Proof.
  induction bs as [|b bs IH]; cbn [be_int length]; [lia|].
  pose proof (Z_of_byte_range b) as Hb.
  rewrite Nat2Z.inj_succ, Z.pow_succ_r by lia. nia.
Qed.

(** The bytes of the low part do not see the high part. *)
Lemma be_bytes_high (w : nat) (a r : Z) :
  be_bytes w (a * 256 ^ Z.of_nat w + r) = be_bytes w r.
Proof.
  revert a. induction w as [|w IH]; intros a; cbn [be_bytes]; [reflexivity|].
  rewrite Nat2Z.inj_succ, Z.pow_succ_r by lia. f_equal.
  - replace (a * (256 * 256 ^ Z.of_nat w) + r)
      with (r + (a * 256) * 256 ^ Z.of_nat w) by lia.
    rewrite Z.div_add by lia. rewrite Z.add_comm. apply byte_of_Z_add_mul.
  - replace (a * (256 * 256 ^ Z.of_nat w) + r)
      with ((a * 256) * 256 ^ Z.of_nat w + r) by lia.
    apply IH.
Qed.

Lemma be_bytes_be_int (bs : bytes) : be_bytes (length bs) (be_int bs) = bs.
Proof.
  induction bs as [|b bs IH]; cbn [be_int length be_bytes]; [reflexivity|].
  pose proof (be_int_range bs) as Hr. f_equal.
  - rewrite Z.div_add_l by lia. rewrite Z.div_small by lia.
    now rewrite Z.add_0_r, byte_of_Z_of_byte.
  - now rewrite be_bytes_high.
Qed.

Lemma be_bytes_mod (w : nat) (z : Z) :
  be_bytes w (z mod 256 ^ Z.of_nat w) = be_bytes w z.
Proof.
  rewrite (Z.div_mod z (256 ^ Z.of_nat w)) at 2 by lia.
  rewrite (Z.mul_comm (256 ^ Z.of_nat w)). now rewrite be_bytes_high.
Qed.

Lemma pack_unpack_one (c : tchar) (bs : bytes) :
  c <> c_bool ->
  length bs = width c ->
  pack_one c (unpack_one c bs) = Ok bs.
Proof.
  intros Hc Hlen. pose proof (be_int_range bs) as Hr. rewrite Hlen in Hr.
  destruct c; [| contradiction | | |]; cbn [width] in *;
    unfold unpack_one, pack_one.
  - cbn [as_float]. now rewrite <- Hlen, be_bytes_be_int.
  - change (256 ^ Z.of_nat 2) with (2 ^ 16) in Hr.
    rewrite pack_int_in_range by lia.
    now rewrite be_bytes_mod, <- Hlen, be_bytes_be_int.
  - change (256 ^ Z.of_nat 4) with (2 ^ 32) in Hr.
    rewrite pack_int_in_range by lia.
    now rewrite be_bytes_mod, <- Hlen, be_bytes_be_int.
  - change (256 ^ Z.of_nat 4) with (2 ^ 32) in Hr.
    destruct (Z.leb_spec (2 ^ 31) (be_int bs)) as [Hs|Hs].
    + rewrite pack_int_in_range by lia.
      rewrite be_bytes_mod.
      replace (be_int bs - 2 ^ 32) with ((-1) * 256 ^ Z.of_nat 4 + be_int bs)
        by (change (256 ^ Z.of_nat 4) with (2 ^ 32); lia).
      now rewrite be_bytes_high, <- Hlen, be_bytes_be_int.
    + rewrite pack_int_in_range by lia.
      now rewrite be_bytes_mod, <- Hlen, be_bytes_be_int.
Qed.

Lemma pack_unpack_items (c : tchar) (n : nat) (bs : bytes) :
  c <> c_bool ->
  length bs = (n * width c)%nat ->
  Struct.pack (repeat (One c) n) (unpack_items (repeat (One c) n) bs) = Ok bs.
Proof.
  intros Hc. revert bs. induction n as [|n IH]; intros bs Hlen.
  - destruct bs; [reflexivity | discriminate Hlen].
  - cbn [repeat unpack_items Struct.pack pack_item unpack_item item_size].
    rewrite pack_unpack_one; [|exact Hc| rewrite length_take; lia].
    cbn [rbind]. rewrite IH by (rewrite length_drop; lia).
    cbn [rbind]. now rewrite take_drop.
Qed.

End WireCodec.

Section WireCodecFields.

Import TensormeterData Wire.

(** X1. For every field of dimension 0 or 1 whose element type is not boolean,
    a payload of the length [unpack] accepts decodes to a value that [pack]
    encodes to the very same bytes. *)
Theorem unpack_then_pack (cmd : string) (dims : nat) (fmt : tchar) (data : bytes) :
  LUT !! cmd = Some (dims, fmt) ->
  fmt <> c_bool ->
  wire_shaped dims fmt data = true ->
  exists v, unpack cmd data = Ok (DVal v) /\ pack cmd v = Ok data.
Proof.
  intros Hlut Hfmt Hw. unfold pack, unpack.
  rewrite (LUT_not_TENS _ _ Hlut), Hlut. cbn [of_option rbind].
  destruct dims as [|[|dims]]; cbn [wire_shaped] in Hw; [| |discriminate].
  - apply Nat.eqb_eq in Hw. rewrite (unpack_single _ _ Hw). cbn [rbind nth].
    eexists. split; [reflexivity|].
    cbn [Struct.pack pack_item]. rewrite pack_unpack_one by assumption.
    cbn [rbind]. now rewrite app_nil_r.
  - apply andb_true_iff in Hw as [H4 Hb].
    apply Nat.leb_le in H4. apply Nat.eqb_eq in Hb.
    assert (Hh : length (firstn 4 data) = width c_I)
      by (rewrite length_take; cbn [width]; lia).
    rewrite (unpack_single _ _ Hh). cbn [rbind nth unpack_one item_nat].
    fold (header_rows data).
    unfold Struct.unpack. rewrite calcsize_repeat, length_drop, Hb, Nat.eqb_refl.
    cbn [rbind]. eexists. split; [reflexivity|].
    cbn [py_len py_iter rbind]. rewrite unpack_items_length, repeat_length.
    cbn [Struct.pack pack_item pack_one].
    pose proof (be_int_range (firstn 4 data)) as Hr.
    rewrite Hh in Hr. change (256 ^ Z.of_nat (width c_I)) with (2 ^ 32) in Hr.
    unfold header_rows at 1. rewrite Z2Nat.id by lia.
    rewrite pack_int_in_range by lia. cbn [rbind].
    rewrite pack_unpack_items; [|exact Hfmt|rewrite length_drop; exact Hb].
    cbn [rbind]. rewrite be_bytes_mod.
    change 4%nat with (width c_I) at 1. rewrite <- Hh at 1.
    rewrite be_bytes_be_int. now rewrite take_drop.
Qed.

Lemma unpack_then_pack_witness :
  (LUT !! "selc" = Some (1%nat, c_i)
   /\ c_i <> c_bool
   /\ wire_shaped 1 c_i [x00; x00; x00; x01; xff; xff; xff; xfe] = true)
  /\ exists v, unpack "selc" [x00; x00; x00; x01; xff; xff; xff; xfe] = Ok (DVal v)
               /\ pack "selc" v = Ok [x00; x00; x00; x01; xff; xff; xff; xfe].
Proof.
  split; [repeat split; discriminate|].
  apply (unpack_then_pack "selc" 1 c_i); [reflexivity | discriminate | reflexivity].
Defined.

(** *** Framing errors of [unpack] *)

(** X2. [unpack] of a scalar field raises [struct.error] (which is no
    ValueError) whenever the payload is not exactly as long as the element. *)
Theorem unpack_scalar_wrong_length (cmd : string) (fmt : tchar) (data : bytes) :
  LUT !! cmd = Some (0%nat, fmt) ->
  length data <> width fmt ->
  unpack cmd data = Raise StructError
  /\ is_ValueError StructError = false.
Proof.
  intros Hlut Hlen. split; [|reflexivity]. unfold unpack.
  rewrite (LUT_not_TENS _ _ Hlut), Hlut. cbn [of_option rbind].
  unfold Struct.unpack. cbn [calcsize item_size]. rewrite Nat.add_0_r.
  destruct (Nat.eqb_spec (length data) (width fmt)); [contradiction|reflexivity].
Qed.

Lemma unpack_scalar_wrong_length_witness :
  (LUT !! "avgt" = Some (0%nat, c_d)
   /\ length [x00; x00; x00] <> width c_d)
  /\ unpack "avgt" [x00; x00; x00] = Raise StructError
  /\ is_ValueError StructError = false.
Proof.
  split; [split; [reflexivity | discriminate]|].
  apply (unpack_scalar_wrong_length "avgt" c_d); [reflexivity | discriminate].
Defined.

(** X3. [unpack] of a vector field succeeds exactly on payloads of a 4-byte
    count followed by count elements, returning that many elements in
    order; every other payload raises [struct.error]. *)
Theorem unpack_vector_framing (cmd : string) (fmt : tchar) (data : bytes) :
  LUT !! cmd = Some (1%nat, fmt) ->
  if wire_shaped 1 fmt data
  then exists elems,
         unpack cmd data = Ok (DVal (PSeq elems))
         /\ length elems = header_rows data
         /\ elems = unpack_items (repeat (One fmt) (header_rows data)) (skipn 4 data)
  else unpack cmd data = Raise StructError.
Proof.
  intros Hlut. unfold unpack.
  rewrite (LUT_not_TENS _ _ Hlut), Hlut. cbn [of_option rbind wire_shaped].
  destruct (Nat.leb_spec 4 (length data)) as [H4|H4]; cbn [andb].
  - assert (Hh : length (firstn 4 data) = width c_I)
      by (rewrite length_take; cbn [width]; lia).
    rewrite (unpack_single _ _ Hh). cbn [rbind nth unpack_one item_nat].
    fold (header_rows data).
    unfold Struct.unpack. rewrite calcsize_repeat, length_drop.
    destruct (Nat.eqb_spec (length data - 4) (header_rows data * width fmt));
      cbn [rbind]; [|reflexivity].
    eexists. split; [reflexivity|]. split; [|reflexivity].
    now rewrite unpack_items_length, repeat_length.
  - unfold Struct.unpack at 1. rewrite length_take. cbn [calcsize item_size width].
    destruct (Nat.eqb_spec (4 `min` length data) (4 + 0)); [lia|reflexivity].
Qed.

Lemma unpack_vector_framing_witness :
  LUT !! "swit" = Some (1%nat, c_I)
  /\ unpack "swit" [x00; x00; x00; x02; x00; x00; x00; x07] = Raise StructError.
Proof.
  split; [reflexivity|].
  exact (unpack_vector_framing "swit" c_I
           [x00; x00; x00; x02; x00; x00; x00; x07] eq_refl).
Defined.

(** *** The identity text *)

Lemma decode_ascii_bytes (s : string) :
  forallb is_ascii_byte (ascii_bytes s) = true ->
  decode_ascii (ascii_bytes s) = Some s.
Proof.
  intros H. unfold decode_ascii. rewrite H. f_equal.
  unfold ascii_bytes. rewrite map_map.
  rewrite (map_ext _ (fun a => a)) by apply ascii_of_byte_of_ascii.
  rewrite map_id. apply string_of_list_ascii_of_string.
Qed.

(** X4. [unpack] of TENS returns the code followed by the text, one character
    per payload byte, when all bytes are ASCII; otherwise it raises
    UnicodeDecodeError, a ValueError. *)
Theorem unpack_identity_text (data : bytes) :
  if forallb is_ascii_byte data
  then exists text,
         unpack "TENS" data = Ok (DVal (PStr ("TENS" ++ text)))
         /\ String.length text = length data
         /\ ascii_bytes text = data
  else unpack "TENS" data = Raise UnicodeDecodeError
       /\ is_ValueError UnicodeDecodeError = true.
Proof.
  unfold unpack. cbn [String.eqb Ascii.eqb Bool.eqb]. unfold decode_ascii.
  destruct (forallb is_ascii_byte data); cbn [of_option rbind]; [|split; reflexivity].
  eexists. split; [reflexivity|].
  assert (E : ascii_bytes (string_of_list_ascii (map ascii_of_byte data)) = data).
  { unfold ascii_bytes. rewrite list_ascii_of_string_of_list_ascii, map_map.
    rewrite (map_ext _ (fun b => b)) by apply byte_of_ascii_of_byte.
    apply map_id. }
  split; [|exact E]. now rewrite <- ascii_bytes_length, E.
Qed.

(** *** What [pack] produces *)

Lemma pack_one_length (c : tchar) (v : pyval) (bs : bytes) :
  pack_one c v = Ok bs -> length bs = width c.
Proof.
  unfold pack_one, pack_int. intros H.
  destruct c; repeat match type of H with
                | match ?x with _ => _ end = _ => destruct x; try discriminate H
                | (if ?x then _ else _) = _ => destruct x; try discriminate H
                end;
    injection H as <-; first [apply be_bytes_length | reflexivity].
Qed.

Lemma pack_repeat_length (c : tchar) (n : nat) (l : list pyval) (bs : bytes) :
  Struct.pack (repeat (One c) n) l = Ok bs ->
  length l = n /\ length bs = (n * width c)%nat.
Proof.
  revert l bs. induction n as [|n IH]; intros l bs H; cbn [repeat Struct.pack] in H.
  - destruct l; [|discriminate H]. injection H as <-. split; reflexivity.
  - destruct l as [|v l]; [discriminate H|]. cbn [pack_item] in H.
    destruct (pack_one c v) as [b|] eqn:Hb; [|discriminate H]. cbn [rbind] in H.
    destruct (Struct.pack (repeat (One c) n) l) as [bs'|] eqn:Hbs;
      [|discriminate H].
    cbn [rbind] in H. injection H as <-.
    apply pack_one_length in Hb. destruct (IH _ _ Hbs) as [Hl Hlen].
    cbn [length]. rewrite length_app. lia.
Qed.

Lemma pack_size (cmd : string) (dims : nat) (fmt : tchar) (v : pyval) (bs : bytes) :
  LUT !! cmd = Some (dims, fmt) ->
  pack cmd v = Ok bs ->
  match dims with
  | O => length bs = width fmt
  | _ => exists n items,
           py_len v = Ok n /\ py_iter v = Ok items /\ length items = n
           /\ dims = 1%nat
           /\ Z.of_nat n < 2 ^ 32
           /\ firstn 4 bs = be_bytes 4 (Z.of_nat n)
           /\ length bs = (4 + n * width fmt)%nat
  end.
Proof.
  intros Hlut. unfold pack. rewrite Hlut. cbn [of_option rbind].
  destruct dims as [|[|dims]]; [| |discriminate].
  - cbn [Struct.pack pack_item]. intros H.
    destruct (pack_one fmt v) as [b|] eqn:Hb; [|discriminate H].
    cbn [rbind] in H. injection H as <-. rewrite app_nil_r.
    now apply pack_one_length in Hb.
  - intros H.
    destruct (py_len v) as [n|] eqn:Hn; [|discriminate H]. cbn [rbind] in H.
    destruct (py_iter v) as [items|] eqn:Hi; [|discriminate H]. cbn [rbind] in H.
    cbn [Struct.pack pack_item pack_one] in H. unfold pack_int in H.
    cbn [as_int] in H.
    destruct ((0 <=? Z.of_nat n) && (Z.of_nat n <=? 2 ^ 32 - 1)) eqn:Hr;
      [|discriminate H].
    apply andb_true_iff in Hr as [_ Hr]. apply Z.leb_le in Hr.
    cbn [rbind] in H.
    destruct (Struct.pack (repeat (One fmt) n) items) as [body|] eqn:Hb;
      [|discriminate H].
    cbn [rbind] in H. apply Ok_inj in H. subst bs.
    destruct (pack_repeat_length _ _ _ _ Hb) as [Hl Hlen].
    exists n, items. repeat split; try assumption; try lia.
    + rewrite be_bytes_mod.
      now rewrite (take_app_length' _ _ 4 (eq_sym (be_bytes_length 4 _))).
    + rewrite length_app, be_bytes_length. lia.
Qed.

(** X5. When [pack] succeeds, a scalar field gives exactly the element width
    in bytes; a vector field gives the 4-byte big-endian count of fewer
    than 2^32 items followed by count times the element width in bytes. *)
Theorem pack_length (cmd : string) (dims : nat) (fmt : tchar) (v : pyval) (bs : bytes) :
  LUT !! cmd = Some (dims, fmt) ->
  pack cmd v = Ok bs ->
  match dims with
  | O => length bs = width fmt
  | _ => exists n items,
           py_len v = Ok n /\ py_iter v = Ok items /\ length items = n
           /\ dims = 1%nat
           /\ Z.of_nat n < 2 ^ 32
           /\ firstn 4 bs = be_bytes 4 (Z.of_nat n)
           /\ length bs = (4 + n * width fmt)%nat
  end.
Proof. exact (pack_size cmd dims fmt v bs). Qed.

Lemma pack_length_witness :
  (LUT !! "puar" = Some (1%nat, c_d)
   /\ pack "puar" (PSeq [PFloat 0x3FF0000000000000; PInt 2])
      = Ok ([x00; x00; x00; x02]
              ++ [x3f; xf0; x00; x00; x00; x00; x00; x00]
              ++ [x40; x00; x00; x00; x00; x00; x00; x00]))
  /\ length ([x00; x00; x00; x02]
               ++ [x3f; xf0; x00; x00; x00; x00; x00; x00]
               ++ [x40; x00; x00; x00; x00; x00; x00; x00])
     = (4 + 2 * width c_d)%nat.
Proof.
  split; [split; reflexivity|].
  destruct (pack_length "puar" 1 c_d (PSeq [PFloat 0x3FF0000000000000; PInt 2])
              _ eq_refl eq_refl)
    as (n & items & Hn & _ & _ & _ & _ & _ & Hlen).
  injection Hn as <-. exact Hlen.
Defined.

End WireCodecFields.

(** ** update *)

Section Update.

Import TensormeterData.

(** X6. [update] is all or nothing: either the decoded value is stored under
    the code, every other entry and the key set staying as they were, or
    it raises and the dictionary is unchanged. *)
Theorem update_all_or_nothing (cmd : string) (bs : bytes) (d : gmap string decoded) :
  match update cmd bs d with
  | (Ok _, d') =>
      exists v, unpack cmd bs = Ok v
                /\ is_Some (d !! cmd)
                /\ d' !! cmd = Some v
                /\ (forall k, k <> cmd -> d' !! k = d !! k)
                /\ dom d' = dom d
  | (Raise e, d') => d' = d
  end.
Proof.
  pose proof (update_keys cmd bs d) as Hk. unfold update in *.
  destruct (d !! cmd) as [old|] eqn:E; [|reflexivity].
  destruct (unpack cmd bs) as [v|e]; [|reflexivity].
  exists v. repeat split; eauto.
  - apply lookup_insert_eq.
  - intros k Hk'. now apply lookup_insert_ne.
Qed.

End Update.

(** ** send and the commands built on it *)

Section SendMore.

Import TensormeterData Client.

(** X7. [send] with a falsy value and any ASCII command (in the field table or
    not, of any length below 2^32) transmits the 4-byte big-endian length
    of the command followed by the command, and leaves the data alone. *)
Theorem send_without_value (cmd : string) (v : pyval) (c : client) :
  truthy v = false ->
  encode_ascii cmd = Some (ascii_bytes cmd) ->
  Z.of_nat (String.length cmd) < 2 ^ 32 ->
  closed (sock c) = false ->
  send cmd v c = (Done tt, sent cmd [] c)
  /\ tx (sock (sent cmd [] c))
     = tx (sock c) ++ [be_bytes 4 (Z.of_nat (String.length cmd)) ++ ascii_bytes cmd]
  /\ data (sent cmd [] c) = data c.
Proof.
  intros Hv He Hn Hc. repeat split.
  - apply send_payload; rewrite ?Hv, ?Nat.add_0_r; auto.
  - unfold sent, framed. cbn [sock set_sock push_tx tx length].
    now rewrite Nat.add_0_r, app_nil_r.
Qed.

(** The identity query of [__init__]: 00 00 00 05 "*IDN?". *)
Lemma send_without_value_witness :
  (truthy PNone = false
   /\ encode_ascii "*IDN?" = Some (ascii_bytes "*IDN?")
   /\ Z.of_nat (String.length "*IDN?") < 2 ^ 32
   /\ closed (sock (connected [] false)) = false)
  /\ tx (sock (snd (new [] false)))
     = [[x00; x00; x00; x05; x2a; x49; x44; x4e; x3f]].
Proof.
  split; [repeat split|].
  destruct (send_without_value "*IDN?" PNone (connected [] false)
              eq_refl eq_refl eq_refl eq_refl) as (Hs & Htx & _).
  unfold new. rewrite Hs. cbn [snd]. rewrite Htx. reflexivity.
Defined.

(** The client a [send] leaves behind differs from the one it found only
    in the log and in the list of transmitted messages. *)
Lemma send_frame (cmd : string) (v : pyval) (c : client) :
  let r := send cmd v c in
  data (snd r) = data c
  /\ data_ready_event (snd r) = data_ready_event c
  /\ stopped (snd r) = stopped c
  /\ rx (sock (snd r)) = rx (sock c)
  /\ fin (sock (snd r)) = fin (sock c)
  /\ closed (sock (snd r)) = closed (sock c)
  /\ match fst r with
     | Done _ => exists msg, tx (sock (snd r)) = tx (sock c) ++ [msg]
                             /\ closed (sock c) = false
     | _ => tx (sock (snd r)) = tx (sock c)
     end.
Proof.
  unfold send, bind.
  destruct (truthy v); [destruct (pack cmd v) as [payload|e]|];
    cbn [lift ret]; try (repeat split; reflexivity);
    (destruct (encode_ascii cmd) as [cb|]; cbn [of_option lift];
     [|repeat split; reflexivity]);
    (match goal with
     | |- context [lift (Struct.pack ?f ?a) c] =>
         destruct (Struct.pack f a) as [hd|e']
     end; cbn [lift]; [|repeat split; reflexivity]);
    unfold logger, modify, sock_send; cbn [sock add_log];
    destruct (closed (sock c)) eqn:Hc;
    cbn [fst snd sock add_log set_sock push_tx data data_ready_event
         stopped rx fin tx closed];
    repeat split; auto; eexists; split; reflexivity.
Qed.

(** X8. A [send] that raises hands nothing to the socket and changes neither
    the data dictionary nor the data-ready event. *)
Theorem send_failure_sends_nothing (cmd : string) (v : pyval) (c : client) (e : exn) :
  fst (send cmd v c) = Throw e ->
  tx (sock (snd (send cmd v c))) = tx (sock c)
  /\ data (snd (send cmd v c)) = data c
  /\ data_ready_event (snd (send cmd v c)) = data_ready_event c.
Proof.
  intros H. pose proof (send_frame cmd v c) as (Hd & He & _ & _ & _ & _ & Ht).
  cbn zeta in Ht. rewrite H in Ht. auto.
Qed.

Lemma send_failure_sends_nothing_witness :
  fst (send "newd" (PInt 1) (connected [] false)) = Throw NotImplementedError
  /\ tx (sock (snd (send "newd" (PInt 1) (connected [] false)))) = [].
Proof.
  split; [reflexivity|].
  exact (proj1 (send_failure_sends_nothing
                  "newd" (PInt 1) (connected [] false) NotImplementedError eq_refl)).
Defined.

(** X9. [send] with a truthy value raises KeyError for a code outside the
    field table and NotImplementedError for a matrix field; any error of
    [pack] is passed on.  In each case the client is left untouched. *)
Theorem send_value_needs_field (cmd : string) (v : pyval) (c : client) :
  truthy v = true ->
  match LUT !! cmd with
  | None => send cmd v c = (Throw (KeyError cmd), c)
  | Some (S (S _), _) => send cmd v c = (Throw NotImplementedError, c)
  | Some (_, _) =>
      forall e, pack cmd v = Raise e -> send cmd v c = (Throw e, c)
  end.
Proof.
  intros Hv. unfold send, bind. rewrite Hv.
  destruct (LUT !! cmd) as [[dims fmt]|] eqn:Hlut.
  - destruct dims as [|[|dims]].
    + intros e He. now rewrite He.
    + intros e He. now rewrite He.
    + unfold pack. now rewrite Hlut.
  - unfold pack. now rewrite Hlut.
Qed.

(** clear_data takes no value; with one, "cldt" is no field. *)
Lemma send_value_needs_field_witness :
  truthy (PInt 1) = true
  /\ send "cldt" (PInt 1) (connected [] false)
     = (Throw (KeyError "cldt"), connected [] false).
Proof.
  split; [reflexivity|].
  exact (send_value_needs_field "cldt" (PInt 1) (connected [] false) eq_refl).
Defined.

(** X10. [measure] on an open socket with an integer: 0 sends the command
    alone, a non-zero value of the signed 32-bit range sends its
    two's-complement bytes, any other value raises [struct.error] and
    leaves the client untouched. *)
Theorem measure_int (z : Z) (c : client) :
  closed (sock c) = false ->
  measure (PInt z) c =
    if z =? 0 then (Done tt, sent "meas" [] c)
    else if (- 2 ^ 31 <=? z) && (z <? 2 ^ 31)
         then (Done tt, sent "meas" (be_bytes 4 (z mod 2 ^ 32)) c)
         else (Throw StructError, c).
Proof.
  intros Hc. unfold measure.
  destruct (Z.eqb_spec z 0) as [->|Hz].
  - apply send_payload; try reflexivity; exact Hc.
  - assert (Ht : truthy (PInt z) = true).
    { cbn [truthy]. now destruct (Z.eqb_spec z 0). }
    destruct ((- 2 ^ 31 <=? z) && (z <? 2 ^ 31)) eqn:Hr.
    + apply andb_true_iff in Hr as [H1 H2].
      apply Z.leb_le in H1. apply Z.ltb_lt in H2.
      apply send_payload; try reflexivity; try exact Hc.
      rewrite Ht. unfold pack.
      change (LUT !! "meas") with (Some (0%nat, c_i)).
      cbn [of_option rbind Struct.pack pack_item pack_one].
      rewrite pack_int_in_range by lia. cbn [rbind]. now rewrite app_nil_r.
    + assert (Hpk : pack "meas" (PInt z) = Raise StructError).
      { unfold pack. change (LUT !! "meas") with (Some (0%nat, c_i)).
        cbn [of_option rbind Struct.pack pack_item pack_one].
        unfold pack_int. cbn [as_int].
        replace (z <=? 2 ^ 31 - 1) with (z <? 2 ^ 31)
          by (destruct (Z.ltb_spec z (2 ^ 31)), (Z.leb_spec z (2 ^ 31 - 1)); lia).
        now rewrite Hr. }
      unfold send, bind. now rewrite Ht, Hpk.
Qed.

Lemma measure_int_witness :
  closed (sock (connected [] false)) = false
  /\ measure (PInt (-1)) (connected [] false)
     = (Done tt, sent "meas" [xff; xff; xff; xff] (connected [] false))
  /\ measure (PInt (2 ^ 31)) (connected [] false)
     = (Throw StructError, connected [] false).
Proof.
  split; [reflexivity|]. split.
  - exact (measure_int (-1) (connected [] false) eq_refl).
  - exact (measure_int (2 ^ 31) (connected [] false) eq_refl).
Defined.

End SendMore.

(** ** The receive loop, message by message *)

Section ReaderFrames.

Import TensormeterData Client Frames.

Lemma pending_nonempty (seg : bytes) (rest : list bytes) :
  seg <> [] -> pending (seg :: rest) = seg :: rest.
Proof. destruct seg; [contradiction | reflexivity]. Qed.

(** A [recv] of [n > 0] bytes takes them from the first pending segment. *)
Lemma sock_recv_pending (n : nat) (s : socket) (seg : bytes) (rest : list bytes) :
  (0 < n)%nat ->
  closed s = false ->
  pending (rx s) = seg :: rest ->
  sock_recv (Z.of_nat n) s
  = (Ok (firstn n seg), mk_socket (skipn n seg :: rest) (fin s) (tx s) (closed s)).
Proof.
  intros Hn Hc Hp. unfold sock_recv.
  destruct (Z.ltb_spec (Z.of_nat n) 0); [lia|].
  destruct (Z.eqb_spec (Z.of_nat n) 0); [lia|].
  now rewrite Hc, Hp, Nat2Z.id.
Qed.

Lemma recv_pending (n : nat) (c : client) (seg : bytes) (rest : list bytes) :
  (0 < n)%nat ->
  closed (sock c) = false ->
  pending (rx (sock c)) = seg :: rest ->
  recv (Z.of_nat n) c
  = (Done (firstn n seg),
     set_sock (mk_socket (skipn n seg :: rest) (fin (sock c)) (tx (sock c)) false) c).
Proof.
  intros Hn Hc Hp. unfold recv.
  rewrite (sock_recv_pending n _ seg rest Hn Hc Hp), Hc. reflexivity.
Qed.

Lemma update_raise_same (cmd : string) (bs : bytes) (d d' : gmap string decoded)
  (e : exn) :
  update cmd bs d = (Raise e, d') -> d' = d.
Proof.
  unfold update. destruct (d !! cmd); [destruct (unpack cmd bs)|]; congruence.
Qed.

(** The tail of the loop body, after the message has been read. *)
Lemma handle_message (cmd : string) (payload : bytes) (s : socket) (c : client) :
  (logger (DebugReceived cmd (Z.of_nat (length payload))) ;;
   (if negb (Nat.eqb (length payload) 0) then
      try_except_ValueError
        (fun c =>
           let '(r, d) := update cmd payload (data c) in
           lift r (set_data d c))
        (fun exc => logger (ErrorUpdating cmd exc))
    else ret tt) ;;
   (if existsb (String.eqb cmd) data_ready_markers
    then modify (set_data_ready_event true)
    else ret tt)) (set_sock s c)
  = handled cmd payload s c.
Proof.
  unfold handled, received, mark, bind, logger, modify, ret, try_except_ValueError.
  destruct payload as [|b payload]; cbn [length Nat.eqb negb].
  - now destruct (existsb (String.eqb cmd) data_ready_markers).
  - cbn [data add_log set_sock].
    destruct (update cmd (b :: payload) (data c)) as [[[]|e] d] eqn:Hu;
      cbn [lift].
    + now destruct (existsb (String.eqb cmd) data_ready_markers).
    + apply update_raise_same in Hu. subst d.
      assert (Hc : forall r, set_data (data c) (add_log r (set_sock s c))
                             = add_log r (set_sock s c))
        by (intros; now destruct c).
      rewrite Hc.
      destruct (is_ValueError e); [|reflexivity].
      now destruct (existsb (String.eqb cmd) data_ready_markers).
Qed.

Lemma set_sock_twice (s s' : socket) (c : client) :
  set_sock s (set_sock s' c) = set_sock s c.
Proof. reflexivity. Qed.

Lemma recv_nat_0 (c : client) : recv (Z.of_nat 0) c = (Done [], set_sock (sock c) c).
Proof. reflexivity. Qed.

Lemma set_sock_same (c : client) : set_sock (sock c) c = c.
Proof. now destruct c. Qed.

Lemma reader_event_framed
  (fuel : nat) (cmd : string) (payload more : bytes) (rest : list bytes)
  (c : client) :
  closed (sock c) = false ->
  pending (rx (sock c)) = (framed cmd payload ++ more) :: rest ->
  String.length cmd = 4%nat ->
  forallb is_ascii_byte (ascii_bytes cmd) = true ->
  Z.of_nat (4 + length payload) < 2 ^ 32 ->
  reader_event fuel c
  = handled cmd payload
      (mk_socket ((more :: rest)) (fin (sock c)) (tx (sock c)) false) c.
Proof.
  intros Hc Hp Hcmd Hascii Hlen.
  assert (Hcb : length (ascii_bytes cmd) = 4%nat)
    by now rewrite ascii_bytes_length.
  unfold framed in Hp. rewrite Hcmd in Hp.
  set (L := Z.of_nat (4 + length payload)) in *.
  rewrite <- !app_assoc in Hp.
  unfold reader_event.
  (* the length prefix *)
  unfold bind at 1. change (recv 4) with (recv (Z.of_nat 4)).
  rewrite (recv_pending 4 c _ _ ltac:(lia) Hc Hp).
  rewrite (take_app_length' _ _ 4 (eq_sym (be_bytes_length 4 L))).
  rewrite (drop_app_length' _ _ 4 (eq_sym (be_bytes_length 4 L))).
  rewrite be_bytes_length. cbn [Nat.eqb negb].
  unfold bind at 1.
  rewrite (unpack_single c_I (be_bytes 4 L) (be_bytes_length 4 L)).
  cbn [lift nth unpack_one].
  rewrite be_int_be_bytes_small
    by (change (256 ^ Z.of_nat 4) with (2 ^ 32); unfold L; lia).
  replace (L - 4) with (Z.of_nat (length payload)) by (unfold L; lia).
  (* the code *)
  unfold bind at 1.
  rewrite (recv_pending 4 _ (ascii_bytes cmd ++ payload ++ more) rest);
    [| lia | reflexivity
     | cbn [sock set_sock rx]; apply pending_nonempty;
       destruct (ascii_bytes cmd); [discriminate Hcb | discriminate] ].
  rewrite (take_app_length' _ _ 4 (eq_sym Hcb)).
  rewrite (drop_app_length' _ _ 4 (eq_sym Hcb)).
  unfold bind at 1. rewrite (decode_ascii_bytes cmd Hascii). cbn [of_option lift].
  rewrite set_sock_twice. cbn [sock set_sock fin tx].
  (* the payload *)
  unfold bind at 1.
  destruct payload as [|b payload].
  - rewrite recv_nat_0. rewrite set_sock_twice. cbn [sock set_sock app].
    unfold bind at 1. rewrite (recv_rest_complete fuel []).
    apply handle_message.
  - rewrite (recv_pending (length (b :: payload)) _ ((b :: payload) ++ more) rest);
      [| cbn [length]; lia | reflexivity | reflexivity].
    rewrite take_app_length, drop_app_length.
    rewrite set_sock_twice. cbn [sock set_sock fin tx].
    unfold bind at 1. rewrite (recv_rest_complete fuel (b :: payload)).
    apply handle_message.
Qed.

(** X11. The loop body on a pending segment that starts with a whole message
    (length prefix, four ASCII code bytes, payload): it consumes exactly
    the message, skips the update for an empty payload, stores the decoded
    value, logs a ValueError of the update and goes on, lets any other
    exception escape, and sets the event for newd and alld. *)
Theorem reader_event_frame
  (fuel : nat) (cmd : string) (payload more : bytes) (rest : list bytes)
  (c : client) :
  closed (sock c) = false ->
  pending (rx (sock c)) = (framed cmd payload ++ more) :: rest ->
  String.length cmd = 4%nat ->
  forallb is_ascii_byte (ascii_bytes cmd) = true ->
  Z.of_nat (4 + length payload) < 2 ^ 32 ->
  reader_event fuel c
  = handled cmd payload
      (mk_socket ((more :: rest)) (fin (sock c)) (tx (sock c)) false) c.
Proof. exact (reader_event_framed fuel cmd payload more rest c). Qed.

Lemma reader_event_frame_witness :
  let c := connected [meas_5 ++ [x00; x00]] false in
  (closed (sock c) = false
   /\ pending (rx (sock c))
      = (framed "meas" [x00; x00; x00; x05] ++ [x00; x00]) :: []
   /\ String.length "meas" = 4%nat
   /\ forallb is_ascii_byte (ascii_bytes "meas") = true
   /\ Z.of_nat (4 + length [x00; x00; x00; x05]) < 2 ^ 32)
  /\ fst (reader_event 0 c) = Done tt
  /\ data (snd (reader_event 0 c)) !! "meas" = Some (DVal (PInt 5))
  /\ rx (sock (snd (reader_event 0 c))) = [[x00; x00]].
Proof.
  intros c. split; [repeat split|].
  rewrite (reader_event_frame 0 "meas" [x00; x00; x00; x05] [x00; x00] [] c
             eq_refl eq_refl eq_refl eq_refl eq_refl).
  repeat split.
Defined.

(** *** Partial reads *)

Lemma concat_pending (segs : list bytes) : concat (pending segs) = concat segs.
Proof.
  induction segs as [|s segs IH]; [reflexivity|].
  destruct s; [exact IH | reflexivity].
Qed.

Lemma pending_length (segs : list bytes) :
  (length (pending segs) <= length segs)%nat.
Proof.
  induction segs as [|s segs IH]; [reflexivity|].
  destruct s; cbn [pending length]; lia.
Qed.

Lemma select_pending (c : client) (seg : bytes) (rest : list bytes) :
  closed (sock c) = false ->
  pending (rx (sock c)) = seg :: rest ->
  select c = (Done [tt], c).
Proof. intros Hc Hp. unfold select. now rewrite Hc, Hp. Qed.

(** X12. The payload loop gathers the bytes still needed across segment
    boundaries (empty segments included), leaves the bytes that follow in
    the socket, and needs no more iterations than there are pending
    segments. *)
Theorem recv_rest_gathers (fuel need : nat) (got : bytes) (c : client) :
  closed (sock c) = false ->
  (need <= length (concat (rx (sock c))))%nat ->
  (length (pending (rx (sock c))) <= fuel)%nat ->
  exists s',
    recv_rest fuel (Z.of_nat (length got + need)) got c
    = (Done (got ++ firstn need (concat (rx (sock c)))), set_sock s' c)
    /\ concat (rx s') = skipn need (concat (rx (sock c)))
    /\ fin s' = fin (sock c) /\ tx s' = tx (sock c) /\ closed s' = false.
Proof.
  revert need got c. induction fuel as [|fuel IH]; intros need got c Hc Hn Hf.
  - (* no segment pending: nothing is needed *)
    destruct (pending (rx (sock c))) as [|seg rest] eqn:Hp; [|cbn in Hf; lia].
    rewrite <- concat_pending, Hp in Hn. cbn in Hn.
    assert (need = 0%nat) as -> by lia.
    exists (sock c). rewrite Nat.add_0_r, recv_rest_complete, set_sock_same.
    cbn [firstn skipn]. rewrite app_nil_r. auto.
  - destruct need as [|need].
    { exists (sock c). rewrite Nat.add_0_r, recv_rest_complete, set_sock_same.
      cbn [firstn skipn]. rewrite app_nil_r. auto. }
    destruct (pending (rx (sock c))) as [|seg rest] eqn:Hp.
    { rewrite <- concat_pending, Hp in Hn. cbn in Hn. lia. }
    pose proof (pending_head _ _ _ Hp) as Hseg.
    rewrite <- (concat_pending (rx (sock c))), Hp in *. cbn [concat] in *.
    cbn [recv_rest].
    destruct (Z.eqb_spec (Z.of_nat (length got))
                         (Z.of_nat (length got + S need))) as [E|_]; [lia|].
    unfold bind at 1. rewrite (select_pending c seg rest Hc Hp).
    unfold bind at 1.
    replace (Z.of_nat (length got + S need) - Z.of_nat (length got))
      with (Z.of_nat (S need)) by lia.
    rewrite (recv_pending (S need) c seg rest ltac:(lia) Hc Hp).
    set (c1 := set_sock _ c).
    destruct (Nat.le_gt_cases (S need) (length seg)) as [Hle|Hgt].
    + (* the segment holds all that is needed *)
      exists (sock c1).
      replace (Z.of_nat (length got + S need))
        with (Z.of_nat (length (got ++ firstn (S need) seg)))
        by (rewrite length_app, length_take; lia).
      rewrite recv_rest_complete.
      rewrite take_app_le, drop_app_le by lia.
      subst c1. cbn [sock set_sock rx fin tx closed concat]. auto.
    + (* the whole segment is taken and more is needed *)
      rewrite take_ge by lia.
      destruct (IH (S need - length seg)%nat (got ++ seg) c1) as (s' & Hr & Hcat & Hfin & Htx & Hcl).
      * reflexivity.
      * subst c1. cbn [sock set_sock rx concat]. rewrite drop_ge by lia.
        cbn [app]. rewrite length_app in Hn. lia.
      * subst c1. cbn [sock set_sock rx]. rewrite drop_ge by lia.
        cbn [pending]. pose proof (pending_length rest). cbn [length] in Hf. lia.
      * exists s'.
        replace (length (got ++ seg) + (S need - length seg))%nat
          with (length got + S need)%nat in Hr by (rewrite length_app; lia).
        rewrite Hr. subst c1. rewrite set_sock_twice.
        cbn [sock set_sock rx fin tx concat] in *.
        rewrite (drop_ge seg) in Hcat by lia. cbn [app] in Hcat.
        rewrite (drop_ge seg) by lia. cbn [app].
        rewrite (take_app_ge seg), (drop_app_ge seg) by lia.
        rewrite <- app_assoc. auto.
Qed.

(** A payload of five bytes arriving as 2 + 0 + 1 + 4 bytes. *)
Lemma recv_rest_gathers_witness :
  let c := connected [[x01; x02]; []; [x03]; [x04; x05; x06; x07]] false in
  (closed (sock c) = false
   /\ (5 <= length (concat (rx (sock c))))%nat
   /\ (length (pending (rx (sock c))) <= 4)%nat)
  /\ exists s',
       recv_rest 4 (Z.of_nat (length (@nil byte) + 5)) [] c
       = (Done [x01; x02; x03; x04; x05], set_sock s' c)
       /\ concat (rx s') = [x06; x07]
       /\ fin s' = false /\ tx s' = [] /\ closed s' = false.
Proof.
  intros c. split; [repeat split; cbn; lia|].
  exact (recv_rest_gathers 4 5 [] c eq_refl ltac:(cbn; lia) ltac:(cbn; lia)).
Defined.

(** X13. When the peer has shut down before the payload is complete, the
    payload loop never ends: whatever the fuel, it is used up, the socket
    still at end of stream. *)
Theorem recv_rest_spins_after_shutdown (fuel : nat) (length : Z) (got : bytes)
  (c : client) :
  closed (sock c) = false ->
  pending (rx (sock c)) = [] ->
  fin (sock c) = true ->
  Z.of_nat (List.length got) < length ->
  exists s', recv_rest fuel length got c = (OutOfFuel, set_sock s' c)
             /\ pending (rx s') = [] /\ fin s' = true.
Proof.
  intros Hc Hp Hf Hl. revert c Hc Hp Hf.
  induction fuel as [|fuel IH]; intros c Hc Hp Hf; cbn [recv_rest];
    (destruct (Z.eqb_spec (Z.of_nat (List.length got)) length); [lia|]).
  - exists (sock c). now rewrite set_sock_same.
  - unfold bind at 1, select at 1. rewrite Hc, Hp, Hf.
    unfold bind at 1, recv, sock_recv.
    destruct (Z.ltb_spec (length - Z.of_nat (List.length got)) 0); [lia|].
    destruct (Z.eqb_spec (length - Z.of_nat (List.length got)) 0); [lia|].
    rewrite Hc, Hp, Hf. cbn [lift]. rewrite app_nil_r.
    destruct (IH (set_sock (mk_socket [] true (tx (sock c)) false) c))
      as (s' & Hr & Hs); try reflexivity.
    exists s'. rewrite Hr, set_sock_twice. auto.
Qed.

Lemma recv_rest_spins_after_shutdown_witness :
  let c := connected [] true in
  (closed (sock c) = false /\ pending (rx (sock c)) = [] /\ fin (sock c) = true
   /\ Z.of_nat (length [x01]) < 8)
  /\ exists s', recv_rest 1000 8 [x01] c = (OutOfFuel, set_sock s' c)
                /\ pending (rx s') = [] /\ fin s' = true.
Proof.
  intros c. split; [repeat split|].
  exact (recv_rest_spins_after_shutdown 1000 8 [x01] c
           eq_refl eq_refl eq_refl eq_refl).
Defined.

(** *** A length prefix below four *)

(** X14. A length prefix below 4 makes [recv] raise ValueError (negative
    buffer size) outside the handler: the exception leaves the loop body,
    with nothing stored and nothing logged. *)
Theorem reader_event_short_prefix
  (fuel : nat) (n : Z) (code more : bytes) (rest : list bytes) (c : client) :
  closed (sock c) = false ->
  pending (rx (sock c)) = (be_bytes 4 n ++ code ++ more) :: rest ->
  0 <= n < 4 ->
  length code = 4%nat ->
  forallb is_ascii_byte code = true ->
  exists c',
    reader_event fuel c = (Throw (ValueError NegativeBuffersize), c')
    /\ data c' = data c /\ log c' = log c
    /\ data_ready_event c' = data_ready_event c
    /\ rx (sock c') = more :: rest.
Proof.
  intros Hc Hp Hn Hcode Hascii.
  unfold reader_event.
  unfold bind at 1. change (recv 4) with (recv (Z.of_nat 4)).
  rewrite (recv_pending 4 c _ _ ltac:(lia) Hc Hp).
  rewrite (take_app_length' _ _ 4 (eq_sym (be_bytes_length 4 n))).
  rewrite (drop_app_length' _ _ 4 (eq_sym (be_bytes_length 4 n))).
  rewrite be_bytes_length. cbn [Nat.eqb negb].
  unfold bind at 1.
  rewrite (unpack_single c_I (be_bytes 4 n) (be_bytes_length 4 n)).
  cbn [lift nth unpack_one].
  rewrite be_int_be_bytes_small
    by (change (256 ^ Z.of_nat 4) with (2 ^ 32); lia).
  unfold bind at 1.
  rewrite (recv_pending 4 _ (code ++ more) rest);
    [| lia | reflexivity
     | cbn [sock set_sock rx]; apply pending_nonempty;
       destruct code; [discriminate Hcode | discriminate] ].
  rewrite (take_app_length' _ _ 4 (eq_sym Hcode)).
  rewrite (drop_app_length' _ _ 4 (eq_sym Hcode)).
  unfold bind at 1. unfold decode_ascii. rewrite Hascii. cbn [of_option lift].
  rewrite set_sock_twice. cbn [sock set_sock fin tx].
  unfold bind at 1, recv, sock_recv.
  destruct (Z.ltb_spec (n - 4) 0); [|lia]. cbn [lift].
  eexists. split; [reflexivity|]. repeat split.
Qed.

(** The prefix 00 00 00 03 before "meas". *)
Lemma reader_event_short_prefix_witness :
  let c := connected [[x00; x00; x00; x03; x6d; x65; x61; x73]] false in
  (closed (sock c) = false
   /\ pending (rx (sock c))
      = (be_bytes 4 3 ++ [x6d; x65; x61; x73] ++ []) :: []
   /\ 0 <= 3 < 4
   /\ length [x6d; x65; x61; x73] = 4%nat
   /\ forallb is_ascii_byte [x6d; x65; x61; x73] = true)
  /\ exists c',
       reader_event 0 c = (Throw (ValueError NegativeBuffersize), c')
       /\ data c' = data c /\ log c' = log c
       /\ data_ready_event c' = data_ready_event c
       /\ rx (sock c') = [] :: [].
Proof.
  intros c. split; [repeat split; lia|].
  exact (reader_event_short_prefix 0 3 [x6d; x65; x61; x73] [] [] c
           eq_refl eq_refl ltac:(lia) eq_refl eq_refl).
Defined.

(** X15. When fewer than four bytes of a length prefix are pending, the loop
    body reads them, fails to unpack them and raises [struct.error]; the
    bytes are lost from the socket. *)
Theorem reader_event_split_prefix
  (fuel : nat) (seg : bytes) (rest : list bytes) (c : client) :
  closed (sock c) = false ->
  pending (rx (sock c)) = seg :: rest ->
  (length seg < 4)%nat ->
  reader_event fuel c
  = (Throw StructError,
     set_sock (mk_socket ([] :: rest) (fin (sock c)) (tx (sock c)) false) c)
  /\ is_ValueError StructError = false.
Proof.
  intros Hc Hp Hlen. split; [|reflexivity].
  pose proof (pending_head _ _ _ Hp) as Hne.
  unfold reader_event.
  unfold bind at 1. change (recv 4) with (recv (Z.of_nat 4)).
  rewrite (recv_pending 4 c _ _ ltac:(lia) Hc Hp).
  rewrite take_ge, drop_ge by lia.
  destruct seg as [|b seg]; [contradiction|]. cbn [length Nat.eqb negb].
  unfold bind at 1, Struct.unpack. cbn [calcsize item_size width length].
  destruct (Nat.eqb_spec (S (length seg)) (4 + 0)) as [E|_];
    [cbn [length] in Hlen; lia | reflexivity].
Qed.

(** Two bytes of a prefix, the rest in the next segment. *)
Lemma reader_event_split_prefix_witness :
  let c := connected [[x00; x00]; [x00; x08; x6d; x65; x61; x73;
                                   x00; x00; x00; x05]] false in
  (closed (sock c) = false
   /\ pending (rx (sock c))
      = [x00; x00] :: [[x00; x08; x6d; x65; x61; x73; x00; x00; x00; x05]]
   /\ (length [x00; x00] < 4)%nat)
  /\ fst (reader_event 0 c) = Throw StructError.
Proof.
  intros c. split; [repeat split; cbn; lia|].
  rewrite (proj1 (reader_event_split_prefix 0 [x00; x00]
                    [[x00; x08; x6d; x65; x61; x73; x00; x00; x00; x05]] c
                    eq_refl eq_refl ltac:(cbn; lia))).
  reflexivity.
Defined.

(** *** What the loop keeps *)

Lemma kept_refl (c : client) : kept c c.
Proof. repeat split; auto. exists []. now rewrite app_nil_r. Qed.

Lemma kept_trans (c1 c2 c3 : client) : kept c1 c2 -> kept c2 c3 -> kept c1 c3.
Proof.
  intros (Hd & Ht & Hf & He & Hs & Hc & l & Hl)
         (Hd' & Ht' & Hf' & He' & Hs' & Hc' & l' & Hl').
  repeat split; try congruence; auto.
  exists (l ++ l'). now rewrite Hl', Hl, app_assoc.
Qed.

Lemma keeps_bind {A B} (m : M A) (k : A -> M B) :
  keeps m -> (forall a, keeps (k a)) -> keeps (bind m k).
Proof.
  intros Hm Hk c. unfold bind. specialize (Hm c).
  destruct (m c) as [[a| | |] c']; cbn [snd] in *; auto.
  eapply kept_trans; [exact Hm | apply Hk].
Qed.

Lemma keeps_ret {A} (a : A) : keeps (ret a).
Proof. intros c. apply kept_refl. Qed.

Lemma keeps_lift {A} (r : result A) : keeps (lift r).
Proof. intros c. destruct r; apply kept_refl. Qed.

Lemma keeps_logger (r : log_record) : keeps (logger r).
Proof. intros c. repeat split; auto. now exists [r]. Qed.

Lemma kept_set_sock (s : socket) (c : client) :
  tx s = tx (sock c) ->
  fin s = fin (sock c) ->
  closed s = closed (sock c) ->
  kept c (set_sock s c).
Proof.
  intros Ht Hf Hc. repeat split; auto; cbn; try congruence.
  exists []. now rewrite app_nil_r.
Qed.

Lemma sock_recv_keeps (n : Z) (s0 : socket) :
  let s := snd (sock_recv n s0) in
  tx s = tx s0 /\ fin s = fin s0 /\ closed s = closed s0.
Proof.
  unfold sock_recv.
  destruct (n <? 0); [auto|]. destruct (n =? 0); [auto|].
  destruct (closed s0) eqn:Hc; [auto|].
  destruct (pending (rx s0)); [destruct (fin s0) eqn:Hf|]; cbn; auto.
Qed.

Lemma keeps_recv (n : Z) : keeps (recv n).
Proof.
  intros c. unfold recv.
  pose proof (sock_recv_keeps n (sock c)) as (Ht & Hf & Hc).
  destruct (sock_recv n (sock c)) as [r s]. cbn [snd] in *.
  destruct r; cbn [lift snd]; now apply kept_set_sock.
Qed.

Lemma keeps_select : keeps select.
Proof.
  intros c. unfold select.
  destruct (closed (sock c)); [apply kept_refl|].
  destruct (pending (rx (sock c))); [destruct (fin (sock c))|]; apply kept_refl.
Qed.

Lemma keeps_close : keeps close.
Proof.
  intros c. unfold close.
  destruct (closed (sock c)); [apply kept_refl|]. cbn [snd].
  repeat split; auto. exists []. cbn. now rewrite app_nil_r.
Qed.

Lemma keeps_set_event : keeps (modify (set_data_ready_event true)).
Proof.
  intros c. repeat split; auto. exists []. cbn. now rewrite app_nil_r.
Qed.

Lemma keeps_set_stopped : keeps (modify (set_stopped true)).
Proof.
  intros c. repeat split; auto. exists []. cbn. now rewrite app_nil_r.
Qed.

Lemma keeps_update (cmd : string) (payload : bytes) :
  keeps (fun c => let '(r, d) := update cmd payload (data c) in
                  lift r (set_data d c)).
Proof.
  intros c. pose proof (update_keys cmd payload (data c)) as Hk.
  destruct (update cmd payload (data c)) as [r d]. cbn [snd] in Hk.
  destruct r; cbn [lift snd]; (repeat split; auto; []);
    exists []; cbn; now rewrite app_nil_r.
Qed.

Lemma keeps_try {A} (body : M A) (handler : exn -> M A) :
  keeps body -> (forall e, keeps (handler e)) ->
  keeps (try_except_ValueError body handler).
Proof.
  intros Hb Hh c. unfold try_except_ValueError. specialize (Hb c).
  destruct (body c) as [[a|e| |] c']; cbn [snd] in *; auto.
  destruct (is_ValueError e); auto.
  eapply kept_trans; [exact Hb | apply Hh].
Qed.

Lemma keeps_for_each {A} (l : list A) (body : A -> M unit) :
  (forall a, keeps (body a)) -> keeps (for_each l body).
Proof.
  intros Hb. induction l as [|a l IH]; cbn [for_each].
  - apply keeps_ret.
  - apply keeps_bind; auto.
Qed.

Lemma keeps_recv_rest (fuel : nat) (length : Z) (got : bytes) :
  keeps (recv_rest fuel length got).
Proof.
  revert got. induction fuel as [|fuel IH]; intros got; cbn [recv_rest];
    destruct (Z.of_nat (List.length got) =? length);
    try apply keeps_ret.
  - intros c. apply kept_refl.
  - apply keeps_bind; [apply keeps_select|]. intros _.
    apply keeps_bind; [apply keeps_recv|]. intros more. apply IH.
Qed.

Lemma keeps_reader_event (fuel : nat) : keeps (reader_event fuel).
Proof.
  unfold reader_event.
  apply keeps_bind; [apply keeps_recv|]. intros msglen.
  destruct (negb (length msglen =? 0)%nat).
  - apply keeps_bind; [apply keeps_lift|]. intros t.
    apply keeps_bind; [apply keeps_recv|]. intros raw.
    apply keeps_bind; [apply keeps_lift|]. intros cmd.
    apply keeps_bind; [apply keeps_recv|]. intros data0.
    apply keeps_bind; [apply keeps_recv_rest|]. intros payload.
    apply keeps_bind; [apply keeps_logger|]. intros _.
    apply keeps_bind.
    + destruct (negb (length payload =? 0)%nat); [|apply keeps_ret].
      apply keeps_try; [apply keeps_update|]. intros e. apply keeps_logger.
    + intros _. destruct (existsb (String.eqb cmd) data_ready_markers);
        [apply keeps_set_event | apply keeps_ret].
  - apply keeps_bind; [apply keeps_logger|]. intros _.
    apply keeps_bind; [apply keeps_set_stopped|]. intros _.
    apply keeps_close.
Qed.

Lemma keeps_reader (fuel : nat) : keeps (reader fuel).
Proof.
  induction fuel as [|fuel IH]; cbn [reader].
  - intros c. unfold bind, get. destruct (stopped c); apply kept_refl.
  - intros c. unfold bind at 1, get.
    destruct (stopped c); [apply kept_refl|].
    apply (keeps_bind select); [apply keeps_select|]. intros events.
    apply keeps_bind; [|intros _; apply IH].
    apply keeps_for_each. intros _. apply keeps_reader_event.
Qed.

(** X16. Whatever arrives and however it ends, the receive loop leaves the key
    set of the dictionary and the transmitted messages as they were, and
    never resets the data-ready event, the stop flag or the closed
    flag. *)
Theorem reader_keeps (fuel : nat) (c : client) :
  let c' := snd (reader fuel c) in
  dom (data c') = dom (data c)
  /\ tx (sock c') = tx (sock c)
  /\ (data_ready_event c = true -> data_ready_event c' = true)
  /\ (stopped c = true -> stopped c' = true)
  /\ (closed (sock c) = true -> closed (sock c') = true).
Proof.
  destruct (keeps_reader fuel c) as (Hd & Ht & _ & He & Hs & Hc & _).
  cbn zeta. auto.
Qed.

(** *** A whole conversation *)

Lemma mark_fields (cmd : string) (c : client) :
  data (mark cmd c) = data c
  /\ stopped (mark cmd c) = stopped c
  /\ sock (mark cmd c) = sock c
  /\ data_ready_event (mark cmd c)
     = data_ready_event c || existsb (String.eqb cmd) data_ready_markers.
Proof.
  unfold mark. destruct (existsb (String.eqb cmd) data_ready_markers);
    cbn; repeat split; auto using orb_true_r, orb_false_r.
Qed.

(** A survivable message is handled without an exception. *)
Lemma handled_survivable (cmd : string) (payload : bytes) (s : socket) (c : client) :
  survivable (cmd, payload) = true ->
  dom (data c) = dom init ->
  exists c',
    handled cmd payload s c = (Done tt, c')
    /\ data c' = store (data c) (cmd, payload)
    /\ data_ready_event c'
       = data_ready_event c || existsb (String.eqb cmd) data_ready_markers
    /\ stopped c' = stopped c
    /\ sock c' = s.
Proof.
  intros Hs Hdom. unfold survivable in Hs.
  apply andb_true_iff in Hs as [_ Hs].
  unfold handled, store. cbn [fst snd].
  destruct payload as [|b payload].
  - eexists. split; [reflexivity|].
    destruct (mark_fields cmd (received cmd [] s c)) as (-> & -> & -> & ->).
    repeat split.
  - destruct (update cmd (b :: payload) (data c)) as [[[]|e] d] eqn:Hu.
    + eexists. split; [reflexivity|].
      destruct (mark_fields cmd (set_data d (received cmd (b :: payload) s c)))
        as (-> & -> & -> & ->).
      repeat split.
    + pose proof (update_raise_same _ _ _ _ _ Hu) as ->.
      assert (He : is_ValueError e = true).
      { unfold update in Hu.
        destruct (data c !! cmd) as [old|] eqn:Hk.
        - assert (Hi : is_Some (init !! cmd)).
          { apply elem_of_dom. rewrite <- Hdom. apply elem_of_dom. eauto. }
          destruct Hi as [x Hx]. rewrite Hx in Hs.
          destruct (unpack cmd (b :: payload)); [discriminate Hu|].
          congruence.
        - injection Hu as <-. reflexivity. }
      rewrite He. eexists. split; [reflexivity|].
      destruct (mark_fields cmd
                  (add_log (ErrorUpdating cmd e) (received cmd (b :: payload) s c)))
        as (-> & -> & -> & ->).
      repeat split.
Qed.

Lemma pending_frames (frames : list (string * bytes)) :
  pending (map frame_of frames) = map frame_of frames.
Proof. destruct frames as [|m frames]; reflexivity. Qed.

Lemma store_keys (d : gmap string decoded) (m : string * bytes) :
  dom (store d m) = dom d.
Proof. unfold store. destruct (snd m); [reflexivity | apply update_keys]. Qed.

(** The loop on a peer that has shut down. *)
Lemma reader_shutdown (fuel : nat) (c : client) :
  stopped c = false ->
  closed (sock c) = false ->
  pending (rx (sock c)) = [] ->
  fin (sock c) = true ->
  reader (S fuel) c = (Done tt, shut_down c).
Proof.
  intros Hs Hc Hp Hf.
  rewrite reader_unfold. unfold bind at 1, get. rewrite Hs.
  unfold bind at 1, select. rewrite Hc, Hp, Hf.
  cbn [for_each]. unfold bind at 1 2. unfold reader_event.
  unfold bind at 1, recv, sock_recv. cbn [Z.ltb Z.eqb Z.compare].
  rewrite Hc, Hp, Hf. cbn [lift length Nat.eqb negb].
  unfold bind, logger, modify, close, ret.
  cbn [sock set_sock add_log set_stopped closed data data_ready_event
       stopped log tx rx fin].
  now rewrite reader_stopped.
Qed.

(** X17. On a peer that sends any number of survivable messages, one per
    segment, and then shuts down, the loop returns with one unit of fuel
    per message and one more: the dictionary is the result of storing the
    messages in order, the event is set if it was set or a newd or alld
    came, the stop flag is set, the socket is closed and nothing was
    transmitted. *)
Theorem reader_runs_conversation (frames : list (string * bytes)) (c : client) :
  stopped c = false ->
  closed (sock c) = false ->
  fin (sock c) = true ->
  pending (rx (sock c)) = map frame_of frames ->
  dom (data c) = dom init ->
  forallb survivable frames = true ->
  exists c',
    reader (S (length frames)) c = (Done tt, c')
    /\ data c' = fold_left store frames (data c)
    /\ data_ready_event c'
       = data_ready_event c
         || existsb (fun m => existsb (String.eqb (fst m)) data_ready_markers) frames
    /\ stopped c' = true
    /\ closed (sock c') = true
    /\ tx (sock c') = tx (sock c).
Proof.
  revert c. induction frames as [|[cmd payload] frames IH];
    intros c Hs Hc Hf Hp Hdom Hok.
  - exists (shut_down c). cbn [length].
    rewrite (reader_shutdown 0 c Hs Hc Hp Hf). clear Hdom.
    split; [reflexivity|]. cbn [fold_left existsb].
    rewrite orb_false_r. repeat split.
  - cbn [forallb] in Hok. apply andb_true_iff in Hok as [Hm Hok].
    cbn [map] in Hp. unfold frame_of at 1 in Hp. cbn [fst snd] in Hp.
    rewrite <- (app_nil_r (framed cmd payload)) in Hp.
    assert (Hfr := Hm). unfold survivable in Hfr.
    apply andb_true_iff in Hfr as [Hfr _].
    apply andb_true_iff in Hfr as [Hfr Hlen].
    apply andb_true_iff in Hfr as [Hcmd Hascii].
    apply Nat.eqb_eq in Hcmd. apply Z.ltb_lt in Hlen.
    set (s := mk_socket ([] :: map frame_of frames) (fin (sock c)) (tx (sock c)) false).
    destruct (handled_survivable cmd payload s c Hm Hdom)
      as (c1 & Hh & Hd1 & He1 & Hs1 & Hsock1).
    destruct (IH c1) as (c' & Hr & Hd' & He' & Hs' & Hc' & Ht').
    { congruence. }
    { now rewrite Hsock1. }
    { rewrite Hsock1. exact Hf. }
    { rewrite Hsock1. cbn [rx s pending]. apply pending_frames. }
    { rewrite Hd1. rewrite store_keys. exact Hdom. }
    { exact Hok. }
    exists c'. cbn [length]. rewrite reader_unfold.
    unfold bind at 1, get. rewrite Hs.
    unfold bind at 1. rewrite (select_pending c _ _ Hc Hp).
    cbn [for_each]. unfold bind at 1 2.
    rewrite (reader_event_framed _ cmd payload [] _ c Hc Hp Hcmd Hascii Hlen).
    fold s. rewrite Hh. unfold ret. rewrite Hr.
    clear Hdom IH.
    split; [reflexivity|]. cbn [fold_left existsb fst].
    rewrite Hd', Hd1, He', He1, Ht', Hsock1, orb_assoc.
    repeat split; assumption.
Qed.

(** meas = 5, the unknown code volt, an empty newd, then the shutdown. *)
Lemma reader_runs_conversation_witness :
  let frames := [("meas", [x00; x00; x00; x05]); ("volt", [x01]); ("newd", [])] in
  let c := connected (map frame_of frames) true in
  (stopped c = false /\ closed (sock c) = false /\ fin (sock c) = true
   /\ pending (rx (sock c)) = map frame_of frames
   /\ dom (data c) = dom init
   /\ forallb survivable frames = true)
  /\ exists c',
       reader 4 c = (Done tt, c')
       /\ data c' !! "meas" = Some (DVal (PInt 5))
       /\ data_ready_event c' = true
       /\ stopped c' = true.
Proof.
  intros frames c. split; [repeat split|].
  destruct (reader_runs_conversation frames c
              eq_refl eq_refl eq_refl eq_refl eq_refl eq_refl)
    as (c' & Hr & Hd & He & Hs & _).
  exists c'. split; [exact Hr|]. rewrite Hd, He. repeat split. exact Hs.
Defined.

End ReaderFrames.

(** ** Reading the dictionary *)

Section Attributes.

Import TensormeterData Client Frames Access.

Lemma handled_nonempty (cmd : string) (payload : bytes) (s : socket) (c : client) :
  payload <> [] ->
  handled cmd payload s c
  = match update cmd payload (data c) with
    | (Ok _, d) => (Done tt, mark cmd (set_data d (received cmd payload s c)))
    | (Raise e, _) =>
        if is_ValueError e
        then (Done tt, mark cmd (add_log (ErrorUpdating cmd e)
                                         (received cmd payload s c)))
        else (Throw e, received cmd payload s c)
    end.
Proof. destruct payload; [contradiction | reflexivity]. Qed.

(** X18. Once the loop body has read a TENS message with a non-empty ASCII
    text, [IDN] and the attribute TENS are the code followed by the
    text. *)
Theorem identity_after_reply
  (fuel : nat) (text : string) (more : bytes) (rest : list bytes) (c : client) :
  closed (sock c) = false ->
  is_Some (data c !! "TENS") ->
  text <> "" ->
  forallb is_ascii_byte (ascii_bytes text) = true ->
  Z.of_nat (4 + String.length text) < 2 ^ 32 ->
  pending (rx (sock c)) = (framed "TENS" (ascii_bytes text) ++ more) :: rest ->
  fst (reader_event fuel c) = Done tt
  /\ IDN (snd (reader_event fuel c)) = Ok (DVal (PStr ("TENS" ++ text)))
  /\ getattr "TENS" (snd (reader_event fuel c)) = Attr (DVal (PStr ("TENS" ++ text))).
Proof.
  intros Hc [old Hk] Ht Hascii Hlen Hp.
  rewrite (reader_event_framed fuel "TENS" (ascii_bytes text) more rest c Hc Hp
             eq_refl eq_refl)
    by (rewrite ascii_bytes_length; exact Hlen).
  rewrite handled_nonempty by (destruct text; [contradiction | discriminate]).
  unfold update. rewrite Hk.
  unfold unpack. cbn [String.eqb Ascii.eqb Bool.eqb].
  rewrite (decode_ascii_bytes text Hascii). cbn [of_option rbind fst snd].
  unfold IDN, getattr.
  destruct (mark_fields "TENS"
              (set_data (<["TENS" := DVal (PStr ("TENS" ++ text))]> (data c))
                        (received "TENS" (ascii_bytes text)
                           (mk_socket (more :: rest) (fin (sock c)) (tx (sock c)) false) c)))
    as (-> & _).
  cbn [data set_data]. rewrite lookup_insert_eq. repeat split.
Qed.

Lemma identity_after_reply_witness :
  let c := connected [framed "TENS" (ascii_bytes "ormeter RTM1") ++ []] false in
  (closed (sock c) = false
   /\ is_Some (data c !! "TENS")
   /\ "ormeter RTM1" <> ""
   /\ forallb is_ascii_byte (ascii_bytes "ormeter RTM1") = true
   /\ Z.of_nat (4 + String.length "ormeter RTM1") < 2 ^ 32
   /\ pending (rx (sock c))
      = (framed "TENS" (ascii_bytes "ormeter RTM1") ++ []) :: [])
  /\ IDN (snd (reader_event 0 c)) = Ok (DVal (PStr "TENSormeter RTM1")).
Proof.
  intros c.
  assert (Hk : is_Some (data c !! "TENS")) by (eexists; reflexivity).
  split; [repeat split; [exact Hk | discriminate]|].
  exact (proj1 (proj2 (identity_after_reply 0 "ormeter RTM1" [] [] c
                         eq_refl Hk ltac:(discriminate) eq_refl eq_refl eq_refl))).
Defined.

(** X19. On a client as constructed, whatever the peer sends and however long
    the loop has run, [__getattr__] raises AttributeError exactly for the
    names that are neither TENS nor a code of the field table. *)
Theorem attributes_are_the_fields
  (fuel : nat) (peer_rx : list bytes) (peer_fin : bool) (name : string) :
  let c := snd (reader fuel (connected peer_rx peer_fin)) in
  getattr name c = AttributeError <-> name <> "TENS" /\ LUT !! name = None.
Proof.
  cbn zeta.
  destruct (keeps_reader fuel (connected peer_rx peer_fin)) as (Hd & _).
  cbn [connected data] in Hd. rewrite <- init_lookup.
  unfold getattr.
  destruct (data (snd (reader fuel (connected peer_rx peer_fin))) !! name)
    as [v|] eqn:E.
  - split; [discriminate|]. intros Hn.
    apply not_elem_of_dom in Hn. rewrite <- Hd in Hn.
    apply not_elem_of_dom in Hn. congruence.
  - split; [|reflexivity]. intros _.
    apply not_elem_of_dom. rewrite <- Hd. now apply not_elem_of_dom.
Qed.

End Attributes.

(** ** Sending and receiving, end to end *)

Section EndToEnd.

Import TensormeterData Client Frames.

(** Packing a well-shaped value gives a non-empty payload that decodes
    to the value. *)
Lemma pack_well_shaped (cmd : string) (dims : nat) (fmt : tchar) (v : pyval) :
  LUT !! cmd = Some (dims, fmt) ->
  well_shaped dims fmt v = true ->
  exists bs, pack cmd v = Ok bs /\ unpack cmd bs = Ok (DVal v) /\ bs <> [].
Proof.
  intros Hlut Hv.
  assert (Hne : forall bs, pack cmd v = Ok bs -> bs <> []).
  { intros bs Hb ->. pose proof (pack_size _ _ _ _ _ Hlut Hb) as Hl.
    destruct dims.
    - pose proof (width_pos fmt). cbn in Hl. lia.
    - destruct Hl as (n & items & _ & _ & _ & _ & _ & _ & Hl). cbn in Hl. lia. }
  unfold pack, unpack in *.
  rewrite (LUT_not_TENS _ _ Hlut), Hlut in *. cbn [of_option rbind] in *.
  destruct dims as [|[|dims]]; cbn [well_shaped] in Hv.
  - destruct (pack_one_roundtrip fmt v Hv) as (b & Hb & Hlen & Hun).
    exists b. cbn [Struct.pack pack_item] in *. rewrite Hb in *. cbn [rbind] in *.
    rewrite app_nil_r in *. split; [reflexivity|]. split; [|now apply Hne].
    rewrite (unpack_single _ _ Hlen). cbn [rbind nth]. now rewrite Hun.
  - destruct v as [| | | | | |l]; try discriminate Hv.
    apply andb_true_iff in Hv as [Hl Hn]. apply Z.ltb_lt in Hn.
    destruct (pack_one_roundtrip c_I (PInt (Z.of_nat (length l))))
      as (b & Hb & Hlen & Hun).
    { unfold in_range. apply andb_true_iff.
      split; [apply Z.leb_le | apply Z.ltb_lt]; lia. }
    destruct (pack_repeat_roundtrip fmt l Hl) as (bs & Hbs & Hlens & Huns).
    exists (b ++ bs). cbn [py_len py_iter rbind Struct.pack pack_item] in *.
    rewrite Hb in *. cbn [rbind] in *. rewrite Hbs in *. cbn [rbind] in *.
    split; [reflexivity|]. split; [|now apply Hne].
    change 4%nat with (width c_I). rewrite <- Hlen.
    rewrite take_app_length, drop_app_length.
    rewrite (unpack_single _ _ Hlen). cbn [rbind nth]. rewrite Hun.
    cbn [item_nat]. rewrite Nat2Z.id.
    unfold Struct.unpack. rewrite calcsize_repeat, Hlens, Nat.eqb_refl.
    cbn [rbind]. now rewrite Huns.
  - destruct v; discriminate Hv.
Qed.

(** X20. What one client sends, the loop body of another stores: a truthy
    well-shaped value sent for a field of dimension 0 or 1 goes out as one
    message, and a client that finds this message pending stores the same
    value under the same code. *)
Theorem sent_value_is_received
  (cmd : string) (dims : nat) (fmt : tchar) (v : pyval)
  (a b : client) (fuel : nat) :
  LUT !! cmd = Some (dims, fmt) ->
  well_shaped dims fmt v = true ->
  truthy v = true ->
  closed (sock a) = false ->
  closed (sock b) = false ->
  is_Some (data b !! cmd) ->
  (forall bs, pack cmd v = Ok bs -> Z.of_nat (4 + length bs) < 2 ^ 32) ->
  exists msg,
    fst (send cmd v a) = Done tt
    /\ tx (sock (snd (send cmd v a))) = tx (sock a) ++ [msg]
    /\ forall rest,
         pending (rx (sock b)) = msg :: rest ->
         fst (reader_event fuel b) = Done tt
         /\ data (snd (reader_event fuel b)) !! cmd = Some (DVal v)
         /\ rx (sock (snd (reader_event fuel b))) = [] :: rest.
Proof.
  intros Hlut Hv Ht Ha Hb [old Hk] Hfit.
  destruct (pack_well_shaped _ _ _ _ Hlut Hv) as (bs & Hp & Hu & Hne).
  destruct (LUT_key_ascii _ _ Hlut) as [He Hlen].
  specialize (Hfit bs Hp).
  exists (framed cmd bs). 
  rewrite (send_payload cmd v bs a) by (rewrite ?Ht, ?Hlen; auto).
  split; [reflexivity|]. split; [reflexivity|].
  intros rest Hrx. rewrite <- (app_nil_r (framed cmd bs)) in Hrx.
  assert (Hascii : forallb is_ascii_byte (ascii_bytes cmd) = true).
  { unfold encode_ascii in He.
    destruct (forallb is_ascii_byte (ascii_bytes cmd)); [reflexivity|discriminate]. }
  rewrite (reader_event_framed fuel cmd bs [] rest b Hb Hrx Hlen Hascii Hfit).
  rewrite handled_nonempty by exact Hne.
  unfold update. rewrite Hk, Hu.
  match goal with
  | |- context [mark cmd ?x] => destruct (mark_fields cmd x) as (Hd & _ & Hs & _)
  end.
  cbn [fst snd]. rewrite Hd, Hs. cbn [data sock set_data received add_log set_sock rx].
  rewrite lookup_insert_eq. repeat split.
Qed.

(** select_channels([3, -1]) arriving at a second client. *)
Lemma sent_value_is_received_witness :
  let v := PSeq [PInt 3; PInt (-1)] in
  let a := connected [] false in
  let b := connected [] false in
  (LUT !! "selc" = Some (1%nat, c_i)
   /\ well_shaped 1 c_i v = true
   /\ truthy v = true
   /\ closed (sock a) = false
   /\ closed (sock b) = false
   /\ is_Some (data b !! "selc")
   /\ (forall bs, pack "selc" v = Ok bs -> Z.of_nat (4 + length bs) < 2 ^ 32))
  /\ exists msg,
       fst (select_channels v a) = Done tt
       /\ tx (sock (snd (select_channels v a))) = tx (sock a) ++ [msg]
       /\ forall rest,
            pending (rx (sock b)) = msg :: rest ->
            fst (reader_event 0 b) = Done tt
            /\ data (snd (reader_event 0 b)) !! "selc" = Some (DVal v)
            /\ rx (sock (snd (reader_event 0 b))) = [] :: rest.
Proof.
  intros v a b.
  assert (Hk : is_Some (data b !! "selc")) by (eexists; reflexivity).
  assert (Hfit : forall bs, pack "selc" v = Ok bs ->
                            Z.of_nat (4 + length bs) < 2 ^ 32).
  { intros bs Hbs. apply Ok_inj in Hbs. subst bs. reflexivity. }
  split; [repeat split; assumption|].
  exact (sent_value_is_received "selc" 1 c_i v a b 0
           eq_refl eq_refl eq_refl eq_refl eq_refl Hk Hfit).
Defined.

End EndToEnd.

(** ** close and what follows it *)

Section Close.

Import TensormeterData Client Frames.

(** X21. [close] on an open socket closes it and leaves the stop flag and
    the data alone; a second [close] raises KeyError, and [get_data]
    raises OSError without transmitting or touching the event, whatever
    the receive thread does. *)
Theorem close_then_use (c : client) (env : Z -> client -> client)
  (timeout : Z) (all_data : bool) :
  closed (sock c) = false ->
  exists c1,
    close c = (Done tt, c1)
    /\ closed (sock c1) = true
    /\ stopped c1 = stopped c
    /\ data c1 = data c
    /\ (exists key, close c1 = (Throw (KeyError key), c1))
    /\ fst (get_data env timeout all_data c1) = Throw OSError
    /\ tx (sock (snd (get_data env timeout all_data c1))) = tx (sock c)
    /\ data_ready_event (snd (get_data env timeout all_data c1))
       = data_ready_event c.
Proof.
  intros Hc.
  exists (set_sock (mk_socket (rx (sock c)) (fin (sock c)) (tx (sock c)) true) c).
  split; [unfold close; now rewrite Hc|].
  repeat split.
  - exists "fd". reflexivity.
  - destruct all_data; reflexivity.
  - destruct all_data; reflexivity.
  - destruct all_data; reflexivity.
Qed.

Lemma close_then_use_witness :
  closed (sock (connected [] false)) = false
  /\ exists c1,
       close (connected [] false) = (Done tt, c1)
       /\ closed (sock c1) = true
       /\ stopped c1 = stopped (connected [] false)
       /\ data c1 = data (connected [] false)
       /\ (exists key, close c1 = (Throw (KeyError key), c1))
       /\ fst (get_data reader_env_0 500 false c1) = Throw OSError
       /\ tx (sock (snd (get_data reader_env_0 500 false c1)))
          = tx (sock (connected [] false))
       /\ data_ready_event (snd (get_data reader_env_0 500 false c1))
          = data_ready_event (connected [] false).
Proof.
  split; [reflexivity|].
  exact (close_then_use (connected [] false) reader_env_0 500 false eq_refl).
Defined.

End Close.

(** ** A measurement, from request to result *)

Section Measurement.

Import TensormeterData Client Frames.

(** The loop parks in [select] when nothing is pending and the peer is
    silent. *)
Lemma reader_blocks (fuel : nat) (c : client) :
  stopped c = false ->
  closed (sock c) = false ->
  pending (rx (sock c)) = [] ->
  fin (sock c) = false ->
  reader (S fuel) c = (Blocked, c).
Proof.
  intros Hs Hc Hp Hf. rewrite reader_unfold.
  unfold bind at 1, get. rewrite Hs.
  unfold bind at 1, select. now rewrite Hc, Hp, Hf.
Qed.

(** X22. A measurement from request to result: when the peer answers the
    request with one well-formed matrix message and then stays silent,
    [get_data] sends the request, returns the array of shape (cols, rows)
    holding the elements in transmitted order, and leaves the event
    cleared. *)
Theorem get_data_returns_matrix
  (timeout : Z) (all_data : bool) (rows cols : nat) (body : bytes) (c : client) :
  stopped c = false ->
  closed (sock c) = false ->
  fin (sock c) = false ->
  is_Some (data c !! request_code all_data) ->
  Z.of_nat rows < 2 ^ 32 ->
  Z.of_nat cols < 2 ^ 32 ->
  length body = (rows * cols * 8)%nat ->
  Z.of_nat (12 + length body) < 2 ^ 32 ->
  pending (rx (sock c))
  = [framed (request_code all_data)
       (be_bytes 4 (Z.of_nat rows) ++ be_bytes 4 (Z.of_nat cols) ++ body)] ->
  exists a,
    fst (get_data (reader_env 2) timeout all_data c) = Done (DArray a)
    /\ shape a = (cols, rows)
    /\ flat a = unpack_items (repeat (One c_d) (rows * cols)) body
    /\ data_ready_event (snd (get_data (reader_env 2) timeout all_data c)) = false
    /\ tx (sock (snd (get_data (reader_env 2) timeout all_data c)))
       = tx (sock c) ++ [be_bytes 4 4 ++ ascii_bytes (request_code all_data)].
Proof.
  intros Hs Hc Hf [old Hk] Hr Hcl Hbody Hfit Hp.
  set (cmd := request_code all_data) in *.
  set (payload := be_bytes 4 (Z.of_nat rows) ++ be_bytes 4 (Z.of_nat cols) ++ body) in *.
  assert (Hlut : LUT !! cmd = Some (2%nat, c_d))
    by (subst cmd; destruct all_data; reflexivity).
  assert (Hcmd : String.length cmd = 4%nat /\ forallb is_ascii_byte (ascii_bytes cmd) = true)
    by (subst cmd; destruct all_data; split; reflexivity).
  destruct Hcmd as [Hcmd Hascii].
  assert (Hmark : existsb (String.eqb cmd) data_ready_markers = true)
    by (subst cmd; destruct all_data; reflexivity).
  destruct (header_of_payload rows cols body Hr Hcl) as (Er & Ec & Ed & El).
  fold payload in Er, Ec, Ed, El.
  assert (Hu : unpack cmd payload
               = Ok (DArray {| shape := (cols, rows);
                               flat := unpack_items (repeat (One c_d) (rows * cols)) body |})).
  { rewrite (unpack_matrix_exact _ _ _ Hlut); rewrite ?Er, ?Ec, ?Ed, ?El;
      [reflexivity | lia | cbn [width]; lia]. }
  (* the request *)
  assert (Hsend : send cmd PNone c = (Done tt, sent cmd [] c)).
  { apply send_payload; [reflexivity | | | exact Hc].
    - unfold encode_ascii. now rewrite Hascii.
    - rewrite Hcmd. reflexivity. }
  (* the receive thread while the caller waits *)
  set (c1 := sent cmd [] c).
  set (s := mk_socket [[]] false (tx (sock c1)) false).
  assert (Hev : reader_event 1 c1
                = (Done tt,
                   mark cmd (set_data (<[cmd := DArray
                                 {| shape := (cols, rows);
                                    flat := unpack_items (repeat (One c_d) (rows * cols)) body |}]>
                                         (data c))
                                      (received cmd payload s c1)))).
  { rewrite (reader_event_framed 1 cmd payload [] [] c1);
      [| exact Hc | subst c1; cbn [sent sock set_sock push_tx rx];
                    rewrite app_nil_r; exact Hp
       | exact Hcmd | exact Hascii | rewrite El; lia ].
    rewrite handled_nonempty
      by (subst payload; cbn [be_bytes app]; discriminate).
    unfold update. change (data c1) with (data c). rewrite Hk, Hu.
    subst c1. cbn [sent sock set_sock push_tx fin]. rewrite Hf. reflexivity. }
  set (c2 := mark cmd _) in Hev.
  assert (Hrun : reader 2 c1 = (Blocked, c2)).
  { rewrite reader_unfold. unfold bind at 1, get.
    change (stopped c1) with (stopped c). rewrite Hs.
    unfold bind at 1.
    rewrite (select_pending c1 (framed cmd payload) []);
      [| exact Hc | exact Hp].
    cbn [for_each]. unfold bind at 1 2. rewrite Hev. unfold ret.
    apply reader_blocks; subst c2;
      match goal with
      | |- context [mark cmd ?x] =>
          destruct (mark_fields cmd x) as (_ & Hst & Hso & _)
      end; rewrite ?Hst, ?Hso; try reflexivity.
    cbn. exact Hs. }
  assert (Hfields : data c2 !! cmd
                    = Some (DArray {| shape := (cols, rows);
                                      flat := unpack_items (repeat (One c_d) (rows * cols)) body |})
                    /\ data_ready_event c2 = true
                    /\ tx (sock c2) = tx (sock c1)).
  { subst c2.
    match goal with
    | |- context [mark cmd ?x] =>
        destruct (mark_fields cmd x) as (Hd & _ & Hso & He)
    end.
    rewrite Hd, Hso, He, Hmark, orb_true_r.
    cbn [data set_data]. rewrite lookup_insert_eq. repeat split. }
  destruct Hfields as (Hd2 & He2 & Ht2).
  eexists.
  assert (Hg : get_data (reader_env 2) timeout all_data c
               = (Done (DArray {| shape := (cols, rows);
                                  flat := unpack_items (repeat (One c_d) (rows * cols)) body |}),
                  set_data_ready_event false c2)).
  { unfold get_data. fold (request_code all_data). fold cmd.
    unfold bind at 1. rewrite Hsend. fold c1.
    unfold bind at 1, event_wait, reader_env. rewrite Hrun. cbn [snd].
    rewrite He2. unfold bind, modify, get. cbn [data set_data_ready_event].
    rewrite Hd2. reflexivity. }
  rewrite Hg. cbn [fst snd shape flat data_ready_event set_data_ready_event sock tx].
  repeat split. rewrite Ht2. subst c1. unfold sent, framed.
  cbn [sock set_sock push_tx tx length]. rewrite Hcmd, app_nil_r. reflexivity.
Qed.

Lemma get_data_returns_matrix_witness :
  let c := connected [framed "newd" (be_bytes 4 (Z.of_nat 2) ++ be_bytes 4 (Z.of_nat 3)
                                       ++ six_doubles)] false in
  (stopped c = false /\ closed (sock c) = false /\ fin (sock c) = false
   /\ is_Some (data c !! request_code false)
   /\ Z.of_nat 2 < 2 ^ 32 /\ Z.of_nat 3 < 2 ^ 32
   /\ length six_doubles = (2 * 3 * 8)%nat
   /\ Z.of_nat (12 + length six_doubles) < 2 ^ 32)
  /\ exists a,
       fst (get_data (reader_env 2) 500 false c) = Done (DArray a)
       /\ shape a = (3%nat, 2%nat)
       /\ flat a = unpack_items (repeat (One c_d) (2 * 3)) six_doubles
       /\ data_ready_event (snd (get_data (reader_env 2) 500 false c)) = false
       /\ tx (sock (snd (get_data (reader_env 2) 500 false c)))
          = tx (sock c) ++ [be_bytes 4 4 ++ ascii_bytes (request_code false)].
Proof.
  intros c.
  assert (Hk : is_Some (data c !! request_code false)) by (eexists; reflexivity).
  split; [repeat split; exact Hk|].
  exact (get_data_returns_matrix 500 false 2 3 six_doubles c
           eq_refl eq_refl eq_refl Hk eq_refl eq_refl eq_refl eq_refl eq_refl).
Defined.

End Measurement.
